(** * todos-api: the CRUD handlers of [main.go] over a model of the GORM store

  The program is five HTTP handlers ([CreateTodo], [GetTodos],
  [GetTodoByID], [UpdateTodo], [DeleteTodo]) that talk to one SQLite table
  through the process-wide handle [DB].  The handlers are embedded as
  computations in a small state monad over the connection; the calls they
  make on [DB] ([Create], [Find], [First], [Model(..).Updates], [Delete])
  are embedded as operations on a table of rows, following the SQL that
  GORM issues for the model [models.Todo].

  What lies outside the program is an input of each request: the request
  itself, the time the wall clock shows, and which of the statements the
  request sends meet a storage failure.  A failed statement changes
  nothing in the table. *)

From Stdlib Require Import List String ZArith NArith Bool Arith Lia Sorted.
Import ListNotations.

Set Warnings "-register-all".

(** ** package models *)

Module Models.

(** [time.Time]: an instant, counted from Go's zero time
    (January 1, year 1, 00:00:00 UTC), so that [IsZero t] is [t = 0]. *)
Definition Time := Z.

Definition IsZero (t : Time) : bool := Z.eqb t 0.

(** [models.Todo].  [ID] is a [uint]; [DeletedAt] is a [gorm.DeletedAt],
    a nullable time: [None] is SQL NULL. *)
Record Todo := mkTodo {
  ID          : N;
  CreatedAt   : Time;
  UpdatedAt   : Time;
  DeletedAt   : option Time;
  Title       : string;
  Description : string;
  Completed   : bool
}.

Arguments mkTodo ID%_N CreatedAt%_Z UpdatedAt%_Z DeletedAt
  Title%_string Description%_string Completed.

(** The zero value of the struct, what [var t models.Todo] holds. *)
Definition zero : Todo :=
  {| ID := 0%N; CreatedAt := 0%Z; UpdatedAt := 0%Z; DeletedAt := None;
     Title := EmptyString; Description := EmptyString; Completed := false |}.

End Models.
Export Models.

(** ** JSON values and the struct tags of [models.Todo] *)

Module Json.

(** A JSON document.  [JTime t] stands for the RFC 3339 string that
    [time.Time] marshals to. *)
Inductive JSON :=
| JNull
| JBool (b : bool)
| JNumber (n : N)
| JString (s : string)
| JTime (t : Time)
| JArray (items : list JSON)
| JObject (members : list (string * JSON)).

Definition keys (j : JSON) : list string :=
  match j with
  | JObject members => map fst members
  | _ => []
  end.

(** [json.Marshal] of a [models.Todo]: one member per field that carries a
    [json:"name"] tag, in declaration order; [DeletedAt] is tagged
    [json:"-"] and is left out. *)
Definition marshalTodo (t : Todo) : JSON :=
  JObject [ ("id"%string,          JNumber (ID t));
            ("created_at"%string,  JTime (CreatedAt t));
            ("updated_at"%string,  JTime (UpdatedAt t));
            ("title"%string,       JString (Title t));
            ("description"%string, JString (Description t));
            ("completed"%string,   JBool (Completed t)) ].

(** A Go slice is either nil or a (possibly empty) sequence; a nil slice
    marshals to [null], any other to an array. *)
Definition Slice (A : Type) := option (list A).

Definition marshalTodos (s : Slice Todo) : JSON :=
  match s with
  | None => JNull
  | Some l => JArray (map marshalTodo l)
  end.

(** [iris.Map{"error": msg}]. *)
Definition errorMap (msg : string) : JSON :=
  JObject [ ("error"%string, JString msg) ].

(** What the decoder reads of a JSON object when the target is a
    [models.Todo]: for each tagged field, the member's value when the
    object has one ([j_id] is then the value of a [uint]). *)
Record TodoObject := mkObject {
  j_id          : option N;
  j_created_at  : option Time;
  j_updated_at  : option Time;
  j_title       : option string;
  j_description : option string;
  j_completed   : option bool
}.

(** A request body: either the decoder rejects it (with its message) or it
    is an object read as above. *)
Inductive Body :=
| Malformed (err : string)
| Object (o : TodoObject).

Definition or_zero {A} (z : A) (o : option A) : A :=
  match o with Some a => a | None => z end.

(** Decoding an object into a zero-valued [models.Todo]: members present
    in the body are stored in their field, the other fields keep their zero
    value.  No member reaches [DeletedAt]. *)
Definition decode (o : TodoObject) : Todo :=
  {| ID          := or_zero 0%N (j_id o);
     CreatedAt   := or_zero 0%Z (j_created_at o);
     UpdatedAt   := or_zero 0%Z (j_updated_at o);
     DeletedAt   := None;
     Title       := or_zero EmptyString (j_title o);
     Description := or_zero EmptyString (j_description o);
     Completed   := or_zero false (j_completed o) |}.

(** [ctx.ReadJSON(&t)] on a zero-valued [t]. *)
Definition ReadJSON (b : Body) : string + Todo :=
  match b with
  | Malformed err => inl err
  | Object o => inr (decode o)
  end.

End Json.
Export Json.

(** ** The store behind [DB] *)

Module Gorm.

(** The table [todos]: its rows in the order of their rowid, the order in
    which SQLite stores and scans them, and the largest rowid ever
    inserted, which SQLite keeps for an AUTOINCREMENT key. *)
Record Store := mkStore {
  rows : list Todo;
  seq  : N
}.

Definition empty : Store := {| rows := []; seq := 0%N |}.

(** The largest rowid SQLite can hold, which is also the largest value
    of a Go [int]. *)
Definition max_rowid : N := 9223372036854775807%N.

(** The rowid a key is stored under.  The driver binds a [uint] as a signed
    64-bit integer, so a key above [max_rowid] sits at a negative rowid. *)
Definition rowid (id : N) : Z :=
  if N.leb id max_rowid then Z.of_N id
  else (Z.of_N id - 18446744073709551616)%Z.

(** Putting a row at the place of its rowid. *)
Fixpoint insert_row (v : Todo) (rs : list Todo) : list Todo :=
  match rs with
  | [] => [v]
  | r :: rs' =>
      if Z.ltb (rowid (ID v)) (rowid (ID r)) then v :: rs
      else r :: insert_row v rs'
  end.

Inductive DBError :=
| ErrRecordNotFound
| ErrMissingWhereClause
| ErrConstraint
| ErrFull
| ErrIO.

(** [*gorm.DB] as the handlers read it after a call. *)
Record Result := mkResult {
  Error        : option DBError;
  RowsAffected : N
}.

Definition ok (n : N) : Result := {| Error := None; RowsAffected := n |}.
Definition failed (e : DBError) : Result :=
  {| Error := Some e; RowsAffected := 0%N |}.

(** [errors.Is(err, gorm.ErrRecordNotFound)]. *)
Definition IsRecordNotFound (e : DBError) : bool :=
  match e with ErrRecordNotFound => true | _ => false end.

(** The connection during one request: the table, the wall clock that
    [NowFunc] reads, and the storage failures the request will meet
    ([outage k] says that the [k]-th statement of the request fails: it
    returns an error that is neither record-not-found nor a refused key,
    be it that the file cannot be written or that a row cannot be read
    back). *)
Record Conn := mkConn {
  data   : Store;
  clock  : Time;
  outage : nat -> bool;
  calls  : nat
}.

(** Computations on the connection. *)
Definition DBOp (A : Type) : Type := Conn -> A * Conn.

Definition ret {A} (a : A) : DBOp A := fun c => (a, c).

Definition bind {A B} (m : DBOp A) (k : A -> DBOp B) : DBOp B :=
  fun c => let (a, c') := m c in k a c'.

Declare Scope dbop_scope.
Delimit Scope dbop_scope with dbop.
Notation "x <- m ;; k" := (bind m (fun x => k))
  (at level 61, m at next level, right associativity) : dbop_scope.
Notation "' p <- m ;; k" := (bind m (fun x => match x with p => k end))
  (at level 61, p pattern, m at next level, right associativity) : dbop_scope.
Local Open Scope dbop_scope.

(** Sending one statement: tells whether it fails, and counts it. *)
Definition statement : DBOp bool :=
  fun c => (outage c (calls c),
            {| data := data c; clock := clock c;
               outage := outage c; calls := S (calls c) |}).

Definition NowFunc : DBOp Time := fun c => (clock c, c).

Definition snapshot : DBOp Store := fun c => (data c, c).

Definition commit (s : Store) : DBOp unit :=
  fun c => (tt, {| data := s; clock := clock c;
                   outage := outage c; calls := calls c |}).

(** The soft-delete scope GORM adds to every query and update of a model
    with a [gorm.DeletedAt] field: [deleted_at IS NULL]. *)
Definition live (r : Todo) : bool :=
  match DeletedAt r with None => true | Some _ => false end.

(** The condition GORM derives from the struct it is handed: its primary
    key, when that is not zero. *)
Definition same_key (value r : Todo) : bool :=
  N.eqb (ID value) 0 || N.eqb (ID r) (ID value).

(** The inline condition of [First(&dest, id)] and [Delete(&value, id)],
    where [id] is the path parameter, a string of decimal digits carried
    as its value.  When [strconv.Atoi] accepts the string, which it does up
    to [max_rowid], GORM compares the primary key with it.  Beyond that
    GORM takes the string for an SQL condition of its own, and as such a
    non-zero number holds of every row. *)
Definition inline_condition (id : N) (r : Todo) : bool :=
  if N.leb id max_rowid then N.eqb (ID r) id else true.

(** The rows a call with the inline condition [id] on the struct [value]
    works on: live, with the key of [value] if it has one, and meeting the
    inline condition. *)
Definition selects (value : Todo) (id : N) (r : Todo) : bool :=
  live r && same_key value r && inline_condition id r.

(** The rows [Model(&model)] scopes an update to. *)
Definition targets (model : Todo) (r : Todo) : bool :=
  live r && N.eqb (ID r) (ID model).

(** The largest rowid in use; keys above [max_rowid] sit at negative
    rowids and do not count. *)
Definition largest_id (rs : list Todo) : N :=
  fold_right (fun r m => if N.leb (ID r) max_rowid then N.max (ID r) m
                         else m) 0%N rs.

(** The rowid an AUTOINCREMENT key gives to the next row. *)
Definition next_rowid (s : Store) : N :=
  N.succ (N.max (seq s) (largest_id (rows s))).

Definition key_taken (id : N) (rs : list Todo) : bool :=
  existsb (fun r => N.eqb (ID r) id) rs.

(** Creation fills the tracked times that are still zero. *)
Definition stamp (now : Time) (v : Todo) : Todo :=
  {| ID := ID v;
     CreatedAt := if IsZero (CreatedAt v) then now else CreatedAt v;
     UpdatedAt := if IsZero (UpdatedAt v) then now else UpdatedAt v;
     DeletedAt := DeletedAt v;
     Title := Title v; Description := Description v;
     Completed := Completed v |}.

Definition with_id (id : N) (v : Todo) : Todo :=
  {| ID := id; CreatedAt := CreatedAt v; UpdatedAt := UpdatedAt v;
     DeletedAt := DeletedAt v; Title := Title v;
     Description := Description v; Completed := Completed v |}.

(** [DB.Create(&value)]: INSERT of every column.  A zero primary key is
    left to AUTOINCREMENT and written back into [value]; a non-zero one is
    inserted as it is and has to be free (rows that are soft-deleted still
    hold their key).  A key above [max_rowid] does not come back from the
    INSERT as a [uint]: the call fails and stores nothing. *)
Definition Create (value : Todo) : DBOp (Todo * Result) :=
  down <- statement ;;
  if down then ret (value, failed ErrIO) else
  now <- NowFunc ;;
  s <- snapshot ;;
  let v := stamp now value in
  if N.eqb (ID v) 0 then
    let id := next_rowid s in
    if N.ltb max_rowid id then ret (v, failed ErrFull) else
    let v' := with_id id v in
    _ <- commit {| rows := insert_row v' (rows s);
                   seq := N.max (seq s) id |} ;;
    ret (v', ok 1)
  else
    if N.ltb max_rowid (ID v) || key_taken (ID v) (rows s)
    then ret (v, failed ErrConstraint) else
    _ <- commit {| rows := insert_row v (rows s);
                   seq := N.max (seq s) (ID v) |} ;;
    ret (v, ok 1).

(** [DB.Find(&dest)]: SELECT of the live rows, in the order of the table.
    The destination is replaced by a fresh slice, also when no row
    matches.  A row at a negative rowid does not scan into the [uint] key:
    reading it is one of the failures [outage] stands for. *)
Definition Find (dest : Slice Todo) : DBOp (Slice Todo * Result) :=
  down <- statement ;;
  if down then ret (dest, failed ErrIO) else
  s <- snapshot ;;
  let found := filter live (rows s) in
  ret (Some found, ok (N.of_nat (List.length found))).

(** [DB.First(&dest, id)]: the first live row, by primary key, that meets
    the inline condition [id] (and has the key of [dest] when [dest]
    already has one); [dest] is left as it is when there is none.  As for
    [Find], reading a row at a negative rowid is a failure of [outage]. *)
Definition First (dest : Todo) (id : N) : DBOp (Todo * Result) :=
  down <- statement ;;
  if down then ret (dest, failed ErrIO) else
  s <- snapshot ;;
  match find (selects dest id) (rows s) with
  | Some r => ret (r, ok 1)
  | None => ret (dest, failed ErrRecordNotFound)
  end.

(** The assignments of [Updates(values)] with a struct: every column whose
    field in [values] is not its zero value, and [updated_at], which is
    always set to the current time. *)
Definition assign (now : Time) (values r : Todo) : Todo :=
  {| ID := if N.eqb (ID values) 0 then ID r else ID values;
     CreatedAt :=
       if IsZero (CreatedAt values) then CreatedAt r else CreatedAt values;
     UpdatedAt := now;
     DeletedAt :=
       match DeletedAt values with
       | None => DeletedAt r
       | Some t => Some t
       end;
     Title :=
       if String.eqb (Title values) EmptyString then Title r
       else Title values;
     Description :=
       if String.eqb (Description values) EmptyString then Description r
       else Description values;
     Completed := if Completed values then true else Completed r |}.

(** The table after an UPDATE of the rows [target] by [f].  When the
    UPDATE changes the key, the rows it rewrites go to the place of their
    new rowid. *)
Definition rewrite_rows (moved : bool) (target : Todo -> bool)
  (f : Todo -> Todo) (rs : list Todo) : list Todo :=
  if moved
  then fold_right insert_row (filter (fun r => negb (target r)) rs)
         (map f (filter target rs))
  else map (fun r => if target r then f r else r) rs.

(** [DB.Model(&model).Updates(values)]: UPDATE of the live row whose key is
    the model's.  The assignments are written into [model] while the
    statement is built, before it is sent.  A non-zero key in [values] is
    one of the assignments: the row moves to that key, whatever its size,
    unless the key is taken. *)
Definition Updates (model values : Todo) : DBOp (Todo * Result) :=
  now <- NowFunc ;;
  let model' := assign now values model in
  if N.eqb (ID model) 0 then ret (model', failed ErrMissingWhereClause) else
  down <- statement ;;
  if down then ret (model', failed ErrIO) else
  s <- snapshot ;;
  let target := targets model in
  let moved := negb (N.eqb (ID values) 0)
               && negb (N.eqb (ID values) (ID model)) in
  if moved && key_taken (ID values) (rows s)
  then ret (model', failed ErrConstraint) else
  _ <- commit {| rows := rewrite_rows moved target (assign now values)
                           (rows s);
                 seq := seq s |} ;;
  ret (model', ok (N.of_nat (List.length (filter target (rows s))))).

Definition mark_deleted (now : Time) (r : Todo) : Todo :=
  {| ID := ID r; CreatedAt := CreatedAt r; UpdatedAt := UpdatedAt r;
     DeletedAt := Some now; Title := Title r;
     Description := Description r; Completed := Completed r |}.

Arguments mark_deleted now%_Z r.

(** [DB.Delete(&value, id)] on a model with a [gorm.DeletedAt] field: no
    row is removed; the live rows that meet the inline condition [id] get
    [deleted_at] set to the current time. *)
Definition Delete (value : Todo) (id : N) : DBOp Result :=
  down <- statement ;;
  if down then ret (failed ErrIO) else
  now <- NowFunc ;;
  s <- snapshot ;;
  let target := selects value id in
  _ <- commit {| rows := map (fun r => if target r then mark_deleted now r
                                       else r) (rows s);
                 seq := seq s |} ;;
  ret (ok (N.of_nat (List.length (filter target (rows s))))).

End Gorm.
Export Gorm.
Local Open Scope dbop_scope.

(** ** package main: the handlers *)

(** What a handler has written when it returns: the status code and the
    body, if it wrote one. *)
Record Response := mkResponse {
  status : nat;
  body   : option JSON
}.

Definition StatusOK : nat := 200.
Definition StatusCreated : nat := 201.
Definition StatusNoContent : nat := 204.
Definition StatusBadRequest : nat := 400.
Definition StatusNotFound : nat := 404.
Definition StatusInternalServerError : nat := 500.

(** A context nothing has been written to answers 200 with no body. *)
Definition fresh : Response := {| status := StatusOK; body := None |}.

(** [ctx.StatusCode(code)]. *)
Definition StatusCode (code : nat) (w : Response) : Response :=
  {| status := code; body := body w |}.

(** [ctx.JSON(v)]: writes [v] under the status code set so far. *)
Definition WriteJSON (v : JSON) (w : Response) : Response :=
  {| status := status w; body := Some v |}.

(** [ctx.StopWithJSON(code, v)]. *)
Definition StopWithJSON (code : nat) (v : JSON) : Response :=
  WriteJSON v (StatusCode code fresh).

(** [CreateTodo] (POST /todos). *)
Definition CreateTodo (b : Body) : DBOp Response :=
  match ReadJSON b with
  | inl err =>
      ret (StopWithJSON StatusBadRequest
             (errorMap ("Invalid input data: " ++ err)))
  | inr newTodo =>
      '(newTodo, result) <- Create newTodo ;;
      match Error result with
      | Some _ =>
          ret (StopWithJSON StatusInternalServerError
                 (errorMap "Failed to create Todo item in database."))
      | None =>
          ret (WriteJSON (marshalTodo newTodo) (StatusCode StatusCreated fresh))
      end
  end.

(** [GetTodos] (GET /todos). *)
Definition GetTodos : DBOp Response :=
  '(todos, result) <- Find None ;;
  match Error result with
  | Some _ =>
      ret (StopWithJSON StatusInternalServerError
             (errorMap "Failed to retrieve Todos from database."))
  | None => ret (WriteJSON (marshalTodos todos) fresh)
  end.

(** [GetTodoByID] (GET /todos/{id}). *)
Definition GetTodoByID (id : N) : DBOp Response :=
  '(todo, result) <- First zero id ;;
  match Error result with
  | Some e =>
      if IsRecordNotFound e
      then ret (StopWithJSON StatusNotFound (errorMap "Todo item not found."))
      else ret (StopWithJSON StatusInternalServerError
                  (errorMap "Failed to retrieve Todo item from database."))
  | None => ret (WriteJSON (marshalTodo todo) fresh)
  end.

(** [UpdateTodo] (PUT /todos/{id}).  The results of [Updates] and of the
    second [First] are not looked at. *)
Definition UpdateTodo (id : N) (b : Body) : DBOp Response :=
  '(existingTodo, result) <- First zero id ;;
  match Error result with
  | Some e =>
      if IsRecordNotFound e
      then ret (StopWithJSON StatusNotFound (errorMap "Todo item not found."))
      else ret (StopWithJSON StatusInternalServerError
                  (errorMap "Database error while fetching item."))
  | None =>
      match ReadJSON b with
      | inl _ =>
          ret (StopWithJSON StatusBadRequest (errorMap "Invalid input data."))
      | inr updatedTodo =>
          '(existingTodo, _) <- Updates existingTodo updatedTodo ;;
          '(existingTodo, _) <- First existingTodo id ;;
          ret (WriteJSON (marshalTodo existingTodo) fresh)
      end
  end.

(** [DeleteTodo] (DELETE /todos/{id}). *)
Definition DeleteTodo (id : N) : DBOp Response :=
  result <- Delete zero id ;;
  match Error result with
  | Some _ =>
      ret (StopWithJSON StatusInternalServerError
             (errorMap "Failed to delete Todo item from database."))
  | None =>
      if N.eqb (RowsAffected result) 0
      then ret (StopWithJSON StatusNotFound (errorMap "Todo item not found."))
      else ret (StatusCode StatusNoContent fresh)
  end.

(** ** The routes of [main] and one request against the store *)

(** The five routes under [/todos].  The handlers hand the path parameter
    [{id}] to GORM as the string it is; the requests covered here are those
    whose [{id}] is a string of decimal digits, carried as its value. *)
Inductive Request :=
| POST_todos (b : Body)
| GET_todos
| GET_todo (id : N)
| PUT_todo (id : N) (b : Body)
| DELETE_todo (id : N).

Arguments GET_todo id%_N.
Arguments PUT_todo id%_N b.
Arguments DELETE_todo id%_N.

Definition route (rq : Request) : DBOp Response :=
  match rq with
  | POST_todos b => CreateTodo b
  | GET_todos => GetTodos
  | GET_todo id => GetTodoByID id
  | PUT_todo id b => UpdateTodo id b
  | DELETE_todo id => DeleteTodo id
  end.

(** What the world contributes to a request: the time [NowFunc] reads and
    which of the request's statements meet a storage failure. *)
Record Env := mkEnv {
  now   : Time;
  fails : nat -> bool
}.

Arguments mkEnv now%_Z fails%_function.

Definition run {A} (h : DBOp A) (e : Env) (s : Store) : A * Store :=
  let (a, c) := h {| data := s; clock := now e; outage := fails e;
                     calls := 0 |} in
  (a, data c).

Definition serve (rq : Request) (e : Env) (s : Store) : Response * Store :=
  run (route rq) e s.

(** An environment in which storage never fails. *)
Definition calm (t : Time) : Env := {| now := t; fails := fun _ => false |}.

Arguments calm t%_Z.

(** The stores the service can be in: the empty table, and whatever a
    request leaves behind. *)
Inductive reachable : Store -> Prop :=
| reach_empty : reachable empty
| reach_serve rq e s :
    reachable s -> reachable (snd (serve rq e s)).

(** * Vocabulary of the properties, and sample data *)

(** A non-deleted record with key [id] exists. *)
Definition present (id : N) (s : Store) : Prop :=
  exists t, In t (rows s) /\ DeletedAt t = None /\ ID t = id.

(** The table holds the record [t], not deleted. *)
Definition holds (s : Store) (t : Todo) : Prop :=
  In t (rows s) /\ DeletedAt t = None.

(** The primary key is a key. *)
Definition keyed (s : Store) : Prop := NoDup (map ID (rows s)).

Ltac unfold_handlers :=
  unfold serve, run, route, CreateTodo, GetTodos, GetTodoByID, UpdateTodo,
    DeleteTodo, Create, Find, First, Updates, Delete, bind, statement,
    snapshot, NowFunc, commit, ret;
  cbn [data clock outage calls].

(** [UpdateTodo], once the record is found and the body decoded: whether the
    UPDATE is refused, the table it leaves, and the record the handler
    writes out after the second [First]. *)
Definition update_moves (old v : Todo) : bool :=
  negb (N.eqb (ID v) 0) && negb (N.eqb (ID v) (ID old)).

Definition update_refused (e : Env) (s : Store) (old v : Todo) : bool :=
  N.eqb (ID old) 0
  || fails e 1
  || (update_moves old v && key_taken (ID v) (rows s)).

Definition update_store (e : Env) (s : Store) (old v : Todo) : Store :=
  if update_refused e s old v then s
  else {| rows := rewrite_rows (update_moves old v) (targets old)
                    (assign (now e) v) (rows s);
          seq := seq s |}.

Definition update_shown (e : Env) (s : Store) (id : N) (old v : Todo)
  : Todo :=
  let merged := assign (now e) v old in
  if fails e (if N.eqb (ID old) 0 then 1 else 2) then merged
  else match find (selects merged id) (rows (update_store e s old v)) with
       | Some r => r
       | None => merged
       end.

(** [{"title":"Buy milk","completed":false}] *)
Definition buy_milk : TodoObject :=
  {| j_id := None; j_created_at := None; j_updated_at := None;
     j_title := Some "Buy milk"%string; j_description := None;
     j_completed := Some false |}.

(** The table after one POST of [buy_milk] at time 100. *)
Definition one_todo : Store :=
  snd (serve (POST_todos (Object buy_milk)) (calm 100) empty).

(** The same table after DELETE /todos/1 at time 200. *)
Definition one_deleted : Store :=
  snd (serve (DELETE_todo 1) (calm 200) one_todo).

(** The row a DELETE at time 200 leaves of the record made at time 100. *)
Definition milk_deleted : Todo :=
  {| ID := 1; CreatedAt := 100; UpdatedAt := 100; DeletedAt := Some 200%Z;
     Title := "Buy milk"; Description := EmptyString; Completed := false |}.

(** [{"title":"Buy bread"}] *)
Definition buy_bread : TodoObject :=
  {| j_id := None; j_created_at := None; j_updated_at := None;
     j_title := Some "Buy bread"%string; j_description := None;
     j_completed := None |}.

(** An environment in which every statement after the first fails. *)
Definition first_only (t : Time) : Env :=
  {| now := t; fails := fun k => negb (Nat.eqb k 0) |}.

Arguments first_only t%_Z.

(** The JSON object that shows a record: the six members of an item, each
    with the value the record has for it. *)
Definition shows (j : JSON) (t : Todo) : Prop :=
  j = JObject [ ("id"%string,          JNumber (ID t));
                ("created_at"%string,  JTime (CreatedAt t));
                ("updated_at"%string,  JTime (UpdatedAt t));
                ("title"%string,       JString (Title t));
                ("description"%string, JString (Description t));
                ("completed"%string,   JBool (Completed t)) ].

(** The records a successful list response holds. *)
Definition listed (r : Response) (l : list Todo) : Prop :=
  body r = Some (JArray (map marshalTodo l)).

(** The members of an item on the wire. *)
Definition item_keys : list string :=
  [ "id"; "created_at"; "updated_at"; "title"; "description";
    "completed" ]%string.

Ltac codes :=
  unfold StatusOK, StatusCreated, StatusNoContent, StatusBadRequest,
    StatusNotFound, StatusInternalServerError; lia.

(** The status of a request for a key under which nothing is found. *)
Definition missing_status (e : Env) : nat :=
  if fails e 0 then StatusInternalServerError else StatusNotFound.

(** No row sits under the key zero. *)
Definition nonzero_keys (s : Store) : Prop :=
  forall r, In r (rows s) -> ID r <> 0%N.


(** The merge with zero values set aside: a member supplied with the zero
    value of its type leaves the stored value as well. *)
Definition overwritten {A} (is_zero : A -> bool) (supplied : option A)
  (before after : A) : Prop :=
  match supplied with
  | Some a => if is_zero a then after = before else after = a
  | None => after = before
  end.






(** [{"id":7,"title":"Buy milk"}] *)
Definition milk_numbered : TodoObject :=
  {| j_id := Some 7%N; j_created_at := None; j_updated_at := None;
     j_title := Some "Buy milk"%string; j_description := None;
     j_completed := None |}.


(** The message of the 500 each handler gives. *)
Definition storage_message (rq : Request) : string :=
  match rq with
  | POST_todos _ => "Failed to create Todo item in database."
  | GET_todos => "Failed to retrieve Todos from database."
  | GET_todo _ => "Failed to retrieve Todo item from database."
  | PUT_todo _ _ => "Database error while fetching item."
  | DELETE_todo _ => "Failed to delete Todo item from database."
  end.

(** [{"id":1,"title":"Buy milk"}] *)
Definition milk_again : TodoObject :=
  {| j_id := Some 1%N; j_created_at := None; j_updated_at := None;
     j_title := Some "Buy milk"%string; j_description := None;
     j_completed := None |}.

(** An environment in which every statement fails. *)
Definition stormy (t : Time) : Env := {| now := t; fails := fun _ => true |}.

Arguments stormy t%_Z.


(** The table after a second POST, of [buy_bread], at time 150. *)
Definition two_todos : Store :=
  snd (serve (POST_todos (Object buy_bread)) (calm 150) one_todo).

(** The two records of [two_todos]. *)
Definition milk : Todo :=
  {| ID := 1; CreatedAt := 100; UpdatedAt := 100; DeletedAt := None;
     Title := "Buy milk"; Description := EmptyString; Completed := false |}.

Definition bread : Todo :=
  {| ID := 2; CreatedAt := 150; UpdatedAt := 150; DeletedAt := None;
     Title := "Buy bread"; Description := EmptyString; Completed := false |}.

(** The least number that is not an [int]: [strconv.Atoi] refuses it. *)
Definition beyond_int : N := 9223372036854775808.

(** The largest [uint]. *)
Definition last_uint : N := 18446744073709551615.

(** [{"id":18446744073709551615}] *)
Definition renumber_last : TodoObject :=
  {| j_id := Some last_uint; j_created_at := None; j_updated_at := None;
     j_title := None; j_description := None; j_completed := None |}.

(** [two_todos] after PUT /todos/2 of [renumber_last] at time 300, then
    DELETE /todos/18446744073709551615 at time 400, then a POST of
    [buy_milk] at time 500. *)
Definition relabelled : Store :=
  snd (serve (PUT_todo 2 (Object renumber_last)) (calm 300) two_todos).

Definition swept : Store :=
  snd (serve (DELETE_todo last_uint) (calm 400) relabelled).

Definition restocked : Store :=
  snd (serve (POST_todos (Object buy_milk)) (calm 500) swept).

(** The record of [restocked] that was moved to the largest [uint] and
    then deleted, and the record created last. *)
Definition bread_gone : Todo :=
  {| ID := 18446744073709551615; CreatedAt := 150; UpdatedAt := 300;
     DeletedAt := Some 400%Z; Title := "Buy bread";
     Description := EmptyString; Completed := false |}.

Definition milk_third : Todo :=
  {| ID := 3; CreatedAt := 500; UpdatedAt := 500; DeletedAt := None;
     Title := "Buy milk"; Description := EmptyString; Completed := false |}.

(** The item of a record on the wire, member by member. *)
Definition item (id : N) (created updated : Time) (title description : string)
  (completed : bool) : JSON :=
  JObject [ ("id"%string,          JNumber id);
            ("created_at"%string,  JTime created);
            ("updated_at"%string,  JTime updated);
            ("title"%string,       JString title);
            ("description"%string, JString description);
            ("completed"%string,   JBool completed) ].

Arguments item id%_N created%_Z updated%_Z title%_string
  description%_string completed.


(** The records an array body shows, item by item. *)
Definition lists (r : Response) (l : list Todo) : Prop :=
  exists js, body r = Some (JArray js) /\ Forall2 shows js l.






(** One row is stored no later than another. *)
Definition row_le (a b : Todo) : Prop := (rowid (ID a) <= rowid (ID b))%Z.

(** The table is in the order of the rowids. *)
Definition ordered (s : Store) : Prop := StronglySorted row_le (rows s).

(** * Properties *)

(** ** Records in the table *)

Lemma live_spec r : live r = true <-> DeletedAt r = None.
Proof.
  unfold live. destruct (DeletedAt r); split; congruence.
Qed.

Lemma not_live r : DeletedAt r <> None -> live r = false.
Proof. unfold live. now destruct (DeletedAt r). Qed.

Lemma inline_in_range id r :
  (id <= max_rowid)%N -> inline_condition id r = N.eqb (ID r) id.
Proof.
  intros H. unfold inline_condition. apply N.leb_le in H. now rewrite H.
Qed.

Lemma inline_own r : inline_condition (ID r) r = true.
Proof.
  unfold inline_condition. destruct (N.leb (ID r) max_rowid);
    [apply N.eqb_refl | reflexivity].
Qed.

Lemma selects_zero id r :
  selects zero id r = live r && inline_condition id r.
Proof.
  unfold selects, same_key. simpl. now rewrite andb_true_r.
Qed.

Lemma selects_live value id r : selects value id r = true -> DeletedAt r = None.
Proof.
  unfold selects. intros H.
  apply andb_prop in H as [H _]. apply andb_prop in H as [Hl _].
  now apply live_spec.
Qed.

Lemma selects_spec value id r :
  (id <= max_rowid)%N ->
  selects value id r = true ->
  DeletedAt r = None /\ ID r = id.
Proof.
  intros Hid H. split; [now apply selects_live in H|].
  unfold selects in H. apply andb_prop in H as [_ H].
  rewrite inline_in_range in H by exact Hid. now apply N.eqb_eq.
Qed.

Lemma selects_own r : DeletedAt r = None -> selects zero (ID r) r = true.
Proof.
  intros Hl. rewrite selects_zero, inline_own.
  now rewrite (proj2 (live_spec r) Hl).
Qed.

Lemma find_selects_holds id s t :
  find (selects zero id) (rows s) = Some t -> holds s t.
Proof.
  intros H. apply find_some in H as [Hin Hsel].
  split; [exact Hin | now apply selects_live in Hsel].
Qed.

Lemma find_selects_present id s t :
  (id <= max_rowid)%N ->
  find (selects zero id) (rows s) = Some t ->
  holds s t /\ ID t = id.
Proof.
  intros Hid H. split; [now apply find_selects_holds in H|].
  apply find_some in H as [_ Hsel]. now apply selects_spec in Hsel.
Qed.

(** A record under the id is always found by the lookup on that id. *)
Lemma present_found id s :
  present id s -> exists x, find (selects zero id) (rows s) = Some x.
Proof.
  intros (t & Hin & Hl & <-).
  destruct (find (selects zero (ID t)) (rows s)) as [x|] eqn:E;
    [now exists x|].
  pose proof (find_none _ _ E t Hin) as Hn.
  rewrite (selects_own t Hl) in Hn. discriminate.
Qed.

Lemma find_selects_absent id s :
  (id <= max_rowid)%N ->
  find (selects zero id) (rows s) = None <-> ~ present id s.
Proof.
  intros Hid. split.
  - intros H Hp. apply present_found in Hp as [x Hx]. congruence.
  - intros H. destruct (find (selects zero id) (rows s)) as [t|] eqn:E; auto.
    exfalso. apply H. apply (find_selects_present id s t Hid) in E
      as [[Hin Hl] Hidt].
    now exists t.
Qed.

Lemma filter_nil_find (p : Todo -> bool) (l : list Todo) :
  filter p l = [] <-> find p l = None.
Proof.
  induction l as [|r rs IH]; simpl; [tauto|].
  destruct (p r); [split; discriminate | exact IH].
Qed.

Lemma filter_selects_nil id s :
  (id <= max_rowid)%N ->
  filter (selects zero id) (rows s) = [] <-> ~ present id s.
Proof.
  intros Hid. rewrite <- (find_selects_absent id s Hid).
  apply filter_nil_find.
Qed.

(** ** The handlers, statement by statement *)

Lemma serve_GET_todos e s :
  serve GET_todos e s =
  (if fails e 0
   then StopWithJSON StatusInternalServerError
          (errorMap "Failed to retrieve Todos from database.")
   else WriteJSON (JArray (map marshalTodo (filter live (rows s)))) fresh,
   s).
Proof.
  unfold_handlers. now destruct (fails e 0).
Qed.

Lemma serve_GET_todo id e s :
  serve (GET_todo id) e s =
  (if fails e 0
   then StopWithJSON StatusInternalServerError
          (errorMap "Failed to retrieve Todo item from database.")
   else match find (selects zero id) (rows s) with
        | Some t => WriteJSON (marshalTodo t) fresh
        | None => StopWithJSON StatusNotFound
                    (errorMap "Todo item not found.")
        end,
   s).
Proof.
  unfold_handlers. destruct (fails e 0); [reflexivity|].
  cbn [data]. now destruct (find (selects zero id) (rows s)).
Qed.

Lemma serve_DELETE_todo id e s :
  serve (DELETE_todo id) e s =
  if fails e 0
  then (StopWithJSON StatusInternalServerError
          (errorMap "Failed to delete Todo item from database."), s)
  else (match filter (selects zero id) (rows s) with
        | [] => StopWithJSON StatusNotFound (errorMap "Todo item not found.")
        | _ :: _ => StatusCode StatusNoContent fresh
        end,
        {| rows := map (fun r => if selects zero id r
                                 then mark_deleted (now e) r else r) (rows s);
           seq := seq s |}).
Proof.
  unfold_handlers. destruct (fails e 0); [reflexivity|].
  cbn. now destruct (filter (selects zero id) (rows s)).
Qed.

Lemma serve_POST_todos b e s :
  serve (POST_todos b) e s =
  match ReadJSON b with
  | inl err => (StopWithJSON StatusBadRequest
                  (errorMap ("Invalid input data: " ++ err)), s)
  | inr v =>
      let refused := (StopWithJSON StatusInternalServerError
                        (errorMap "Failed to create Todo item in database."),
                      s) in
      if fails e 0 then refused else
      let v := stamp (now e) v in
      let id := if N.eqb (ID v) 0 then next_rowid s else ID v in
      if N.ltb max_rowid id then refused else
      if negb (N.eqb (ID v) 0) && key_taken id (rows s) then refused else
      (WriteJSON (marshalTodo (with_id id v)) (StatusCode StatusCreated fresh),
       {| rows := insert_row (with_id id v) (rows s);
          seq := N.max (seq s) id |})
  end.
Proof.
  unfold_handlers.
  destruct (ReadJSON b) as [err|v]; [reflexivity|].
  cbn [data clock outage calls]. destruct (fails e 0); [reflexivity|].
  cbn [data clock outage calls stamp ID].
  destruct (N.eqb (ID v) 0) eqn:E0; cbn [negb andb orb].
  - destruct (N.ltb max_rowid (next_rowid s)); reflexivity.
  - destruct (N.ltb max_rowid (ID v)); cbn [orb]; [reflexivity|].
    destruct (key_taken (ID v) (rows s)); [reflexivity|].
    destruct v; reflexivity.
Qed.

Lemma serve_PUT_todo id b e s :
  serve (PUT_todo id b) e s =
  if fails e 0
  then (StopWithJSON StatusInternalServerError
          (errorMap "Database error while fetching item."), s)
  else match find (selects zero id) (rows s) with
       | None => (StopWithJSON StatusNotFound
                    (errorMap "Todo item not found."), s)
       | Some old =>
           match ReadJSON b with
           | inl _ => (StopWithJSON StatusBadRequest
                         (errorMap "Invalid input data."), s)
           | inr v => (WriteJSON (marshalTodo (update_shown e s id old v))
                         fresh,
                       update_store e s old v)
           end
       end.
Proof.
  unfold_handlers. destruct (fails e 0); [reflexivity|].
  cbn [data]. destruct (find (selects zero id) (rows s)) as [old|];
    [|reflexivity].
  cbn [Error ok]. destruct (ReadJSON b) as [err|v]; [reflexivity|].
  unfold update_shown, update_store, update_refused, update_moves.
  cbn [data clock outage calls].
  destruct (N.eqb (ID old) 0); cbn [orb data clock outage calls].
  - destruct (fails e 1); cbn [data];
      [reflexivity|].
    now destruct (find _ (rows s)).
  - destruct (fails e 1); cbn [orb data clock outage calls].
    + destruct (fails e 2); cbn [data]; [reflexivity|].
      now destruct (find _ (rows s)).
    + destruct (negb (N.eqb (ID v) 0) && negb (N.eqb (ID v) (ID old))
                && key_taken (ID v) (rows s));
        cbn [data clock outage calls].
      * destruct (fails e 2); cbn [data]; [reflexivity|].
        now destruct (find _ (rows s)).
      * destruct (fails e 2); cbn [data rows]; [reflexivity|].
        now destruct (find _ _).
Qed.

(** ** The primary key stays a key *)

Lemma largest_id_ge rs r :
  In r rs -> (ID r <= max_rowid)%N -> (ID r <= largest_id rs)%N.
Proof.
  intros Hin Hfit. induction rs as [|a rs IH]; simpl; [destruct Hin|].
  destruct Hin as [->|Hin].
  - apply N.leb_le in Hfit. rewrite Hfit. lia.
  - specialize (IH Hin). destruct (N.leb (ID a) max_rowid); lia.
Qed.

Lemma next_rowid_fresh s r :
  In r (rows s) -> (next_rowid s <= max_rowid)%N -> ID r <> next_rowid s.
Proof.
  intros Hin Hroom Heq.
  assert (ID r <= max_rowid)%N as Hfit by (rewrite Heq; exact Hroom).
  pose proof (largest_id_ge (rows s) r Hin Hfit) as Hle.
  unfold next_rowid in Heq. lia.
Qed.

Lemma next_rowid_pos s : next_rowid s <> 0%N.
Proof. unfold next_rowid. lia. Qed.

Lemma key_taken_false id rs :
  key_taken id rs = false <-> (forall r, In r rs -> ID r <> id).
Proof.
  unfold key_taken. split.
  - intros H r Hin Hid.
    assert (existsb (fun r => N.eqb (ID r) id) rs = true) as E.
    { apply existsb_exists. exists r. split; [exact Hin | now apply N.eqb_eq]. }
    congruence.
  - intros H. destruct (existsb _ rs) eqn:E; [|reflexivity].
    apply existsb_exists in E as (r & Hin & Hid).
    apply N.eqb_eq in Hid. now elim (H r Hin).
Qed.

Lemma In_insert_row v rs x : In x (insert_row v rs) <-> x = v \/ In x rs.
Proof.
  induction rs as [|r rs IH]; cbn [insert_row].
  - cbn. intuition.
  - destruct (Z.ltb (rowid (ID v)) (rowid (ID r))); cbn [In].
    + intuition.
    + rewrite IH. cbn [In]. intuition.
Qed.

Lemma length_insert_row v rs :
  List.length (insert_row v rs) = S (List.length rs).
Proof.
  induction rs as [|r rs IH]; cbn [insert_row]; [reflexivity|].
  destruct (Z.ltb (rowid (ID v)) (rowid (ID r))); cbn [List.length];
    [reflexivity | now rewrite IH].
Qed.

Lemma count_insert_row (p : Todo -> bool) v rs :
  List.length (filter p (insert_row v rs))
  = if p v then S (List.length (filter p rs)) else List.length (filter p rs).
Proof.
  induction rs as [|r rs IH]; cbn [insert_row filter].
  - destruct (p v); reflexivity.
  - destruct (Z.ltb (rowid (ID v)) (rowid (ID r))); cbn [filter].
    + destruct (p v); reflexivity.
    + destruct (p r); cbn [List.length]; rewrite IH; now destruct (p v).
Qed.

Lemma keyed_insert rs v :
  NoDup (map ID rs) -> (forall r, In r rs -> ID r <> ID v) ->
  NoDup (map ID (insert_row v rs)).
Proof.
  induction rs as [|r rs IH]; cbn [insert_row]; intros Hnd Hfree.
  - cbn. constructor; [intros [] | constructor].
  - destruct (Z.ltb (rowid (ID v)) (rowid (ID r))).
    + change (NoDup (ID v :: map ID (r :: rs))). constructor; [|exact Hnd].
      intros Hin. apply in_map_iff in Hin as (x & Hx & Hin).
      now apply (Hfree x Hin).
    + cbn [map] in *. inversion Hnd as [|? ? Hr Hrs]; subst.
      constructor.
      * intros Hin. apply in_map_iff in Hin as (x & Hx & Hin).
        apply In_insert_row in Hin as [->|Hin].
        -- apply (Hfree r (or_introl eq_refl)). now symmetry.
        -- apply Hr. rewrite <- Hx. now apply in_map.
      * apply IH; [exact Hrs|]. intros x Hx. apply Hfree. now right.
Qed.

Section RowUpdate.

Variables (p : Todo -> bool) (g : Todo -> Todo).

Let f (r : Todo) : Todo := if p r then g r else r.

Lemma update_keeps_keys rs :
  (forall r, In r rs -> p r = true -> ID (g r) = ID r) ->
  map ID (map f rs) = map ID rs.
Proof.
  induction rs as [|r rs IH]; simpl; intros H; [reflexivity|].
  rewrite IH by (intros; apply H; auto). f_equal.
  unfold f. destruct (p r) eqn:E; [apply H; auto | reflexivity].
Qed.

Lemma update_untouched rs :
  (forall r, In r rs -> p r = false) -> map f rs = rs.
Proof.
  induction rs as [|r rs IH]; simpl; intros H; [reflexivity|].
  rewrite IH by (intros; apply H; auto). unfold f.
  now rewrite (H r (or_introl eq_refl)).
Qed.

Lemma find_update (q : Todo -> bool) rs :
  (forall r, q (f r) = q r) ->
  find q (map f rs) = option_map f (find q rs).
Proof.
  intros Hq. induction rs as [|r rs IH]; simpl; [reflexivity|].
  rewrite Hq. destruct (q r); [reflexivity | exact IH].
Qed.

Lemma In_fold_insert news base x :
  In x (fold_right insert_row base news) <-> In x news \/ In x base.
Proof.
  induction news as [|n news IH]; cbn [fold_right In]; [tauto|].
  rewrite In_insert_row, IH. intuition.
Qed.

Lemma length_fold_insert news base :
  List.length (fold_right insert_row base news)
  = List.length news + List.length base.
Proof.
  induction news as [|n news IH]; cbn [fold_right List.length]; [reflexivity|].
  now rewrite length_insert_row, IH.
Qed.

Lemma In_rewrite_rows moved rs x :
  In x (rewrite_rows moved p g rs) <-> exists r, In r rs /\ x = f r.
Proof.
  unfold rewrite_rows. destruct moved.
  - rewrite In_fold_insert, in_map_iff. split.
    + intros [(r & <- & Hr)|Hx].
      * apply filter_In in Hr as [Hr Hp]. exists r. split; [exact Hr|].
        unfold f. now rewrite Hp.
      * apply filter_In in Hx as [Hx Hp]. exists x. split; [exact Hx|].
        unfold f. apply negb_true_iff in Hp. now rewrite Hp.
    + intros (r & Hr & ->). unfold f. destruct (p r) eqn:Hp.
      * left. exists r. split; [reflexivity|]. now apply filter_In.
      * right. apply filter_In. split; [exact Hr|]. now rewrite Hp.
  - rewrite in_map_iff. split.
    + intros (r & <- & Hr). now exists r.
    + intros (r & Hr & ->). now exists r.
Qed.

Lemma length_rewrite_rows moved rs :
  List.length (rewrite_rows moved p g rs) = List.length rs.
Proof.
  unfold rewrite_rows. destruct moved; [|apply length_map].
  rewrite length_fold_insert, length_map. apply filter_length.
Qed.

Lemma rewrite_retains moved rs r :
  In r rs -> p r = false -> In r (rewrite_rows moved p g rs).
Proof.
  intros Hin Hp. apply In_rewrite_rows. exists r. split; [exact Hin|].
  unfold f. now rewrite Hp.
Qed.

Lemma keyed_filter (q : Todo -> bool) rs :
  NoDup (map ID rs) -> NoDup (map ID (filter q rs)).
Proof.
  induction rs as [|r rs IH]; cbn [filter map]; intros Hnd; [constructor|].
  inversion Hnd as [|? ? Hr Hrs]; subst.
  destruct (q r); [|now apply IH]. cbn [map]. constructor; [|now apply IH].
  intros Hin. apply Hr. apply in_map_iff in Hin as (x & Hx & Hin).
  apply filter_In in Hin as [Hin _]. rewrite <- Hx. now apply in_map.
Qed.

(** Under a key there is at most one row to rewrite. *)
Lemma one_target rs k :
  NoDup (map ID rs) -> (forall r, p r = true -> ID r = k) ->
  filter p rs = [] \/ exists a, filter p rs = [a].
Proof.
  intros Hnd Hk. induction rs as [|r rs IH]; cbn [filter]; [now left|].
  inversion Hnd as [|? ? Hr Hrs]; subst.
  destruct (p r) eqn:E; [|now apply IH].
  right. exists r. f_equal.
  destruct (filter p rs) as [|a l] eqn:Ef; [reflexivity|].
  exfalso. apply Hr.
  assert (In a (filter p rs)) as Ha by (rewrite Ef; now left).
  apply filter_In in Ha as [Ha Hpa].
  rewrite (Hk r E), <- (Hk a Hpa). now apply in_map.
Qed.

Lemma rewrite_moves_key rs k x :
  (forall r, p r = true -> ID r = k) ->
  (forall r, p r = true -> ID (g r) = x) ->
  NoDup (map ID rs) -> ~ In x (map ID rs) ->
  NoDup (map ID (rewrite_rows true p g rs)).
Proof.
  intros Hk Hx Hnd Hfree. unfold rewrite_rows.
  pose proof (keyed_filter (fun r => negb (p r)) rs Hnd) as Hrest.
  destruct (one_target rs k Hnd Hk) as [->|[a Ha]].
  - exact Hrest.
  - rewrite Ha. cbn [map fold_right]. apply keyed_insert; [exact Hrest|].
    assert (In a (filter p rs)) as Hin by (rewrite Ha; now left).
    apply filter_In in Hin as [_ Hpa]. rewrite (Hx a Hpa).
    intros r Hr Hid. apply Hfree. apply filter_In in Hr as [Hr _].
    rewrite <- Hid. now apply in_map.
Qed.

End RowUpdate.

Lemma targets_spec model r :
  targets model r = true -> DeletedAt r = None /\ ID r = ID model.
Proof.
  unfold targets. intros H. apply andb_prop in H as [Hl Hid].
  split; [now apply live_spec | now apply N.eqb_eq].
Qed.

Lemma live_assign t v r : DeletedAt v = None -> live (assign t v r) = live r.
Proof. intros H. unfold live, assign; cbn [DeletedAt]. now rewrite H. Qed.

Lemma keyed_update_store e s old v :
  keyed s -> keyed (update_store e s old v).
Proof.
  unfold keyed, update_store, update_refused, update_moves. intros Hk.
  destruct (N.eqb (ID old) 0); [exact Hk|].
  destruct (fails e 1); [exact Hk|]. cbn [orb].
  destruct (N.eqb (ID v) 0) eqn:Ez; cbn [negb andb rows].
  - unfold rewrite_rows. rewrite update_keeps_keys; [exact Hk|].
    intros r _ _. unfold assign; cbn [ID]. now rewrite Ez.
  - destruct (N.eqb (ID v) (ID old)) eqn:Eo; cbn [negb andb rows].
    + unfold rewrite_rows. rewrite update_keeps_keys; [exact Hk|].
      intros r _ Ht. apply targets_spec in Ht as [_ Hid].
      unfold assign; cbn [ID]. rewrite Ez. apply N.eqb_eq in Eo. congruence.
    + destruct (key_taken (ID v) (rows s)) eqn:Et; cbn [rows]; [exact Hk|].
      apply rewrite_moves_key with (k := ID old) (x := ID v); auto.
      * intros r Ht. now apply targets_spec in Ht.
      * intros r _. unfold assign; cbn [ID]. now rewrite Ez.
      * intros Hin. apply in_map_iff in Hin as (r & Hid & Hin).
        now apply (proj1 (key_taken_false _ _) Et r Hin).
Qed.

Lemma keyed_serve rq e s : keyed s -> keyed (snd (serve rq e s)).
Proof.
  intros Hk. destruct rq as [b| |id|id b|id].
  - rewrite serve_POST_todos. destruct (ReadJSON b) as [err|v]; [exact Hk|].
    cbv zeta. destruct (fails e 0); [exact Hk|].
    destruct (N.ltb max_rowid _) eqn:Efit; [exact Hk|].
    destruct (N.eqb (ID (stamp (now e) v)) 0) eqn:Ez; cbn [negb andb].
    + cbn [snd]. unfold keyed; cbn [rows]. apply keyed_insert; [exact Hk|].
      intros r Hin. cbn [with_id ID]. apply next_rowid_fresh; [exact Hin|].
      now apply N.ltb_ge.
    + destruct (key_taken _ (rows s)) eqn:Et; [exact Hk|].
      cbn [snd]. unfold keyed; cbn [rows]. apply keyed_insert; [exact Hk|].
      intros r Hin. cbn [with_id ID].
      now apply (proj1 (key_taken_false _ _) Et).
  - now rewrite serve_GET_todos.
  - now rewrite serve_GET_todo.
  - rewrite serve_PUT_todo. destruct (fails e 0); [exact Hk|].
    destruct (find _ (rows s)); [|exact Hk].
    destruct (ReadJSON b); [exact Hk|].
    now apply keyed_update_store.
  - rewrite serve_DELETE_todo. destruct (fails e 0); [exact Hk|].
    cbn [snd]. unfold keyed; cbn [rows].
    rewrite update_keeps_keys; [exact Hk | reflexivity].
Qed.

Lemma reachable_keyed s : reachable s -> keyed s.
Proof.
  induction 1 as [|rq e s _ IH].
  - constructor.
  - now apply keyed_serve.
Qed.

(** In a keyed table a record is the only row under its key. *)
Lemma keyed_unique s r t :
  keyed s -> In r (rows s) -> In t (rows s) -> ID t = ID r -> t = r.
Proof.
  unfold keyed. induction (rows s) as [|a rs IH]; simpl; [tauto|].
  intros Hnd Hr Ht Hid. inversion Hnd as [|? ? Ha Hrs]; subst.
  destruct Hr as [->|Hr], Ht as [->|Ht]; auto.
  - exfalso. apply Ha. rewrite <- Hid. now apply in_map.
  - exfalso. apply Ha. rewrite Hid. now apply in_map.
Qed.

Lemma keyed_find s t :
  keyed s -> holds s t -> (ID t <= max_rowid)%N ->
  find (selects zero (ID t)) (rows s) = Some t.
Proof.
  intros Hk [Hin Hl] Hfit.
  destruct (find (selects zero (ID t)) (rows s)) as [r|] eqn:E.
  - apply (find_selects_present _ s r Hfit) in E as [[Hr _] Hid].
    f_equal. exact (keyed_unique s t r Hk Hin Hr Hid).
  - apply find_selects_absent in E; [|exact Hfit]. elim E. now exists t.
Qed.

Lemma nonzero_keys_serve rq e s :
  nonzero_keys s -> nonzero_keys (snd (serve rq e s)).
Proof.
  intros Hnz. destruct rq as [b| |id|id b|id].
  - rewrite serve_POST_todos. destruct (ReadJSON b) as [err|v]; [exact Hnz|].
    cbv zeta. destruct (fails e 0); [exact Hnz|].
    destruct (N.ltb max_rowid _); [exact Hnz|].
    destruct (negb _ && key_taken _ _); [exact Hnz|].
    cbn [snd]. intros r Hin. cbn [rows] in Hin.
    apply In_insert_row in Hin as [->|Hin]; [|now apply Hnz].
    cbn [with_id ID].
    destruct (N.eqb (ID (stamp (now e) v)) 0) eqn:Ez.
    + apply next_rowid_pos.
    + now apply N.eqb_neq.
  - now rewrite serve_GET_todos.
  - now rewrite serve_GET_todo.
  - rewrite serve_PUT_todo. destruct (fails e 0); [exact Hnz|].
    destruct (find _ (rows s)) as [old|]; [|exact Hnz].
    destruct (ReadJSON b) as [err|v]; [exact Hnz|].
    cbn [snd]. unfold update_store.
    destruct (update_refused e s old v); [exact Hnz|].
    intros r Hin. cbn [rows] in Hin.
    apply In_rewrite_rows in Hin as (r0 & Hin & ->).
    destruct (targets old r0); [|now apply Hnz].
    unfold assign; cbn [ID]. destruct (N.eqb (ID v) 0) eqn:Ez.
    + now apply Hnz.
    + now apply N.eqb_neq.
  - rewrite serve_DELETE_todo. destruct (fails e 0); [exact Hnz|].
    cbn [snd]. intros r Hin. cbn [rows] in Hin.
    apply in_map_iff in Hin as (r0 & <- & Hin).
    destruct (selects zero id r0); [|now apply Hnz].
    cbn [mark_deleted ID]. now apply Hnz.
Qed.

Lemma reachable_nonzero_keys s : reachable s -> nonzero_keys s.
Proof.
  induction 1 as [|rq e s _ IH].
  - intros r [].
  - now apply nonzero_keys_serve.
Qed.

(** No request touches a row that is already deleted. *)
Lemma deleted_retained rq e s r :
  In r (rows s) -> live r = false -> In r (rows (snd (serve rq e s))).
Proof.
  intros Hin Hdead. destruct rq as [b| |id|id b|id].
  - rewrite serve_POST_todos. destruct (ReadJSON b) as [err|v]; [exact Hin|].
    cbv zeta. destruct (fails e 0); [exact Hin|].
    destruct (N.ltb max_rowid _); [exact Hin|].
    destruct (negb _ && key_taken _ _); [exact Hin|].
    cbn [snd rows]. apply In_insert_row. now right.
  - now rewrite serve_GET_todos.
  - now rewrite serve_GET_todo.
  - rewrite serve_PUT_todo. destruct (fails e 0); [exact Hin|].
    destruct (find _ (rows s)) as [old|]; [|exact Hin].
    destruct (ReadJSON b) as [err|v]; [exact Hin|].
    cbn [snd]. unfold update_store.
    destruct (update_refused e s old v); [exact Hin|]. cbn [rows].
    apply rewrite_retains; [exact Hin|]. unfold targets. now rewrite Hdead.
  - rewrite serve_DELETE_todo. destruct (fails e 0); [exact Hin|].
    cbn [snd rows]. apply in_map_iff. exists r.
    rewrite selects_zero, Hdead. now split.
Qed.

Lemma store_eta (s : Store) : {| rows := rows s; seq := seq s |} = s.
Proof. now destruct s. Qed.

Lemma marshalTodo_ID t r : marshalTodo t = marshalTodo r -> ID t = ID r.
Proof. unfold marshalTodo. intros H. now injection H. Qed.

Lemma marshalTodo_shows t : shows (marshalTodo t) t.
Proof. reflexivity. Qed.

Lemma find_frame (q : Todo -> bool) (f : Todo -> Todo) (l : list Todo) :
  (forall r, In r l -> q (f r) = q r) ->
  (forall r, In r l -> q r = true -> f r = r) ->
  find q (map f l) = find q l.
Proof.
  induction l as [|a l IH]; intros Hq Hf; [reflexivity|]. cbn [map find].
  rewrite (Hq a (or_introl eq_refl)). destruct (q a) eqn:Ea.
  - now rewrite (Hf a (or_introl eq_refl) Ea).
  - apply IH; intros r Hr; [apply Hq | apply Hf]; now right.
Qed.

Lemma find_agree (q q' : Todo -> bool) (l : list Todo) :
  (forall r, In r l -> q r = q' r) -> find q l = find q' l.
Proof.
  induction l as [|a l IH]; intros H; [reflexivity|]. cbn [find].
  rewrite (H a (or_introl eq_refl)). destruct (q' a); [reflexivity|].
  apply IH. intros r Hr. apply H. now right.
Qed.

(** A stricter condition that the row found still meets finds the same
    row. *)
Lemma find_refine (p q : Todo -> bool) (l : list Todo) (x : Todo) :
  find p l = Some x -> (forall r, q r = true -> p r = true) ->
  q x = true -> find q l = Some x.
Proof.
  intros Hfind Hpq Hqx. induction l as [|a l IH]; [discriminate|].
  cbn [find] in *. destruct (p a) eqn:Ea.
  - injection Hfind as ->. now rewrite Hqx.
  - destruct (q a) eqn:Eq; [|now apply IH].
    rewrite (Hpq a Eq) in Ea. discriminate.
Qed.



(** ** The sample stores are reachable *)

Lemma one_todo_reachable : reachable one_todo.
Proof. apply reach_serve, reach_empty. Qed.

Lemma one_deleted_reachable : reachable one_deleted.
Proof. apply reach_serve, one_todo_reachable. Qed.


(** ** The JSON shape of an item *)

(** C8. Every body that carries items is made of objects with exactly the
    members id, created_at, updated_at, title, description and completed,
    and none named deleted_at: a response is an error object under a status
    of 400 or more, or a success whose body is one such object (create,
    get-by-id, update), an array of them (list), or empty (delete). *)
Theorem TodoItem_JSON_shape (rq : Request) (e : Env) (s : Store) :
  (forall t, keys (marshalTodo t) = item_keys /\
             ~ In "deleted_at"%string (keys (marshalTodo t))) /\
  let r := fst (serve rq e s) in
  (400 <= status r /\ exists msg, body r = Some (errorMap msg)) \/
  (status r < 300 /\
   match rq with
   | GET_todos => exists l, body r = Some (JArray (map marshalTodo l))
   | DELETE_todo _ => body r = None
   | POST_todos _ | GET_todo _ | PUT_todo _ _ =>
       exists t, body r = Some (marshalTodo t)
   end).
Proof.
  split.
  { intros t. split; [reflexivity|]. cbn.
    intros H. repeat (destruct H as [H|H]; [discriminate|]). exact H. }
  assert (forall msg code, 400 <= code ->
            400 <= status (StopWithJSON code (errorMap msg)) /\
            exists m, body (StopWithJSON code (errorMap msg))
                      = Some (errorMap m)) as Herr.
  { intros msg code Hc. split; [exact Hc | now exists msg]. }
  destruct rq as [b| |id|id b|id].
  - rewrite serve_POST_todos. destruct (ReadJSON b) as [err|v].
    { left. apply Herr. codes. }
    cbv zeta. destruct (fails e 0).
    { left. apply Herr. codes. }
    destruct (N.ltb max_rowid _).
    { left. apply Herr. codes. }
    destruct (negb _ && key_taken _ _).
    { left. apply Herr. codes. }
    right. cbn. split; [codes|]. eexists; reflexivity.
  - rewrite serve_GET_todos. destruct (fails e 0).
    { left. apply Herr. codes. }
    right. cbn. split; [codes|]. eexists; reflexivity.
  - rewrite serve_GET_todo. destruct (fails e 0).
    { left. apply Herr. codes. }
    cbn [fst]. destruct (find _ (rows s)).
    + right. cbn. split; [codes|]. eexists; reflexivity.
    + left. apply Herr. codes.
  - rewrite serve_PUT_todo. destruct (fails e 0).
    { left. apply Herr. codes. }
    destruct (find _ (rows s)).
    2:{ left. apply Herr. codes. }
    destruct (ReadJSON b).
    { left. apply Herr. codes. }
    right. cbn. split; [codes|]. eexists; reflexivity.
  - rewrite serve_DELETE_todo. destruct (fails e 0).
    { left. apply Herr. codes. }
    cbn [fst]. destruct (filter _ (rows s)).
    + left. apply Herr. codes.
    + right. cbn. split; [codes | reflexivity].
Qed.

Lemma TodoItem_JSON_shape_witness :
  keys (marshalTodo milk_deleted) = item_keys /\
  exists t, body (fst (serve (GET_todo 1) (calm 5) one_todo))
            = Some (marshalTodo t).
Proof.
  destruct (TodoItem_JSON_shape (GET_todo 1) (calm 5) one_todo)
    as [Hkeys [[Hcode _]|[_ Hitem]]].
  - vm_compute in Hcode. lia.
  - split; [exact (proj1 (Hkeys milk_deleted)) | exact Hitem].
Defined.

(** ** Reads and writes *)

(** C9. List and get-by-id leave the store as it was; a request after
    which the store differs is a create answered 201, an update answered
    200 or a delete answered 204. *)
Theorem reads_have_no_effect (e : Env) (s : Store) :
  snd (serve GET_todos e s) = s /\
  (forall id, snd (serve (GET_todo id) e s) = s) /\
  (forall rq, snd (serve rq e s) <> s ->
     match rq with
     | POST_todos _ => status (fst (serve rq e s)) = StatusCreated
     | PUT_todo _ _ => status (fst (serve rq e s)) = StatusOK
     | DELETE_todo _ => status (fst (serve rq e s)) = StatusNoContent
     | GET_todos | GET_todo _ => False
     end).
Proof.
  split; [|split].
  - now rewrite serve_GET_todos.
  - intros id. now rewrite serve_GET_todo.
  - intros [b| |id|id b|id].
    + rewrite serve_POST_todos. destruct (ReadJSON b) as [err|v];
        [now intros []|]. cbv zeta.
      destruct (fails e 0); [now intros []|].
      destruct (N.ltb max_rowid _); [now intros []|].
      destruct (negb _ && key_taken _ _); [now intros []|]. reflexivity.
    + rewrite serve_GET_todos. now intros [].
    + rewrite serve_GET_todo. now intros [].
    + rewrite serve_PUT_todo. destruct (fails e 0); [now intros []|].
      destruct (find _ (rows s)); [|now intros []].
      destruct (ReadJSON b); [now intros []|]. reflexivity.
    + rewrite serve_DELETE_todo. destruct (fails e 0); [now intros []|].
      cbn [fst snd].
      destruct (filter (selects zero id) (rows s)) eqn:E; [|reflexivity].
      intros H. exfalso. apply H.
      rewrite update_untouched; [apply store_eta|].
      intros r Hin. destruct (selects zero id r) eqn:Er; [|reflexivity].
      assert (In r (filter (selects zero id) (rows s))) as Hf
        by (apply filter_In; now split).
      rewrite E in Hf. destruct Hf.
Qed.

Lemma reads_have_no_effect_witness :
  status (fst (serve (DELETE_todo 1) (calm 200) one_todo)) = StatusNoContent.
Proof.
  destruct (reads_have_no_effect (calm 200) one_todo) as (_ & _ & H).
  apply (H (DELETE_todo 1)). vm_compute. discriminate.
Defined.

(** ** Update: failures after the lookup *)

(** C10. Once the first lookup has found the record and the body has been
    decoded, the update handler answers 200 whatever happens to the UPDATE
    and to the second lookup; when the UPDATE fails nothing is stored, and
    the 200 body can show values that a get-by-id does not find. *)
Theorem UpdateTodo_ignores_failures (id : N) (o : TodoObject) (e : Env)
  (s : Store) :
  fails e 0 = false -> present id s ->
  status (fst (serve (PUT_todo id (Object o)) e s)) = StatusOK /\
  (fails e 1 = true -> snd (serve (PUT_todo id (Object o)) e s) = s) /\
  (exists e' s' o',
      let (r', s'') := serve (PUT_todo 1 (Object o')) e' s' in
      status r' = StatusOK /\ s'' = s' /\
      body r' <> body (fst (serve (GET_todo 1) (calm (now e')) s''))).
Proof.
  intros Hok Hyes. rewrite serve_PUT_todo, Hok.
  destruct (present_found id s Hyes) as [old E]. rewrite E.
  cbn [ReadJSON fst snd]. split; [reflexivity|]. split.
  - intros Hdown. unfold update_store, update_refused.
    rewrite Hdown, orb_true_r. reflexivity.
  - exists (first_only 300), one_todo, buy_bread. vm_compute.
    split; [reflexivity|]. split; [reflexivity|]. discriminate.
Qed.

Lemma UpdateTodo_ignores_failures_witness :
  status (fst (serve (PUT_todo 1 (Object buy_bread)) (first_only 300)
                 one_todo)) = StatusOK /\
  snd (serve (PUT_todo 1 (Object buy_bread)) (first_only 300) one_todo)
  = one_todo.
Proof.
  assert (present 1 one_todo) as Hhere.
  { eexists. split; [left; reflexivity|]. split; reflexivity. }
  destruct (UpdateTodo_ignores_failures 1 buy_bread (first_only 300) one_todo
              eq_refl Hhere) as (H200 & Hsame & _).
  split; [exact H200 | apply Hsame; reflexivity].
Defined.

(** * Further properties of the handlers *)

(** ** Status codes and error bodies *)

(** X1. Each route has its own set of status codes: create answers 201,
    400 or 500; list 200 or 500; get-by-id 200, 404 or 500; update 200, 400,
    404 or 500; delete 204, 404 or 500. *)
Theorem status_by_route (rq : Request) (e : Env) (s : Store) :
  let c := status (fst (serve rq e s)) in
  match rq with
  | POST_todos _ =>
      c = StatusCreated \/ c = StatusBadRequest
      \/ c = StatusInternalServerError
  | GET_todos => c = StatusOK \/ c = StatusInternalServerError
  | GET_todo _ =>
      c = StatusOK \/ c = StatusNotFound \/ c = StatusInternalServerError
  | PUT_todo _ _ =>
      c = StatusOK \/ c = StatusBadRequest \/ c = StatusNotFound
      \/ c = StatusInternalServerError
  | DELETE_todo _ =>
      c = StatusNoContent \/ c = StatusNotFound
      \/ c = StatusInternalServerError
  end.
Proof.
  destruct rq as [b| |id|id b|id]; cbv zeta.
  - rewrite serve_POST_todos. destruct (ReadJSON b) as [err|v]; [now auto|].
    cbv zeta. destruct (fails e 0); [now auto|].
    destruct (N.ltb max_rowid _); [now auto|].
    destruct (negb _ && key_taken _ _); now auto.
  - rewrite serve_GET_todos. destruct (fails e 0); now auto.
  - rewrite serve_GET_todo. destruct (fails e 0); [now auto|].
    cbn [fst]. destruct (find _ (rows s)); now auto.
  - rewrite serve_PUT_todo. destruct (fails e 0); [now auto 6|].
    destruct (find _ (rows s)); [|now auto 6].
    destruct (ReadJSON b); now auto 6.
  - rewrite serve_DELETE_todo. destruct (fails e 0); [now auto|].
    cbn [fst]. destruct (filter _ (rows s)); now auto.
Qed.

(** X2. Error bodies are fixed texts: every 404 carries
    "Todo item not found.", every 500 the message of its handler, and a 400
    is given to a malformed body only, with the decoder's message after
    "Invalid input data: " on create and the bare "Invalid input data." on
    update. *)
Theorem error_bodies (rq : Request) (e : Env) (s : Store) :
  let r := fst (serve rq e s) in
  (status r = StatusNotFound ->
   body r = Some (errorMap "Todo item not found.")) /\
  (status r = StatusInternalServerError ->
   body r = Some (errorMap (storage_message rq))) /\
  (status r = StatusBadRequest ->
   (exists err, rq = POST_todos (Malformed err) /\
                body r = Some (errorMap ("Invalid input data: " ++ err))) \/
   (exists id err, rq = PUT_todo id (Malformed err) /\
                   body r = Some (errorMap "Invalid input data."))).
Proof.
  destruct rq as [b| |id|id b|id]; cbv zeta.
  - rewrite serve_POST_todos. destruct b as [err|o]; cbn [ReadJSON].
    { cbn [fst]. repeat apply conj; try discriminate.
      intros _. left. now exists err. }
    cbv zeta. destruct (fails e 0).
    { repeat apply conj; try discriminate. reflexivity. }
    destruct (N.ltb max_rowid _).
    { repeat apply conj; try discriminate. reflexivity. }
    destruct (negb _ && key_taken _ _);
      repeat apply conj; try discriminate; reflexivity.
  - rewrite serve_GET_todos.
    destruct (fails e 0); repeat apply conj; try discriminate; reflexivity.
  - rewrite serve_GET_todo. destruct (fails e 0).
    { repeat apply conj; try discriminate; reflexivity. }
    cbn [fst]. destruct (find _ (rows s));
      repeat apply conj; try discriminate; reflexivity.
  - rewrite serve_PUT_todo. destruct (fails e 0).
    { repeat apply conj; try discriminate; reflexivity. }
    destruct (find _ (rows s)).
    2:{ repeat apply conj; try discriminate; reflexivity. }
    destruct b as [err|o]; cbn [ReadJSON fst].
    + repeat apply conj; try discriminate.
      intros _. right. now exists id, err.
    + repeat apply conj; discriminate.
  - rewrite serve_DELETE_todo. destruct (fails e 0).
    { repeat apply conj; try discriminate; reflexivity. }
    cbn [fst]. destruct (filter _ (rows s));
      repeat apply conj; try discriminate; reflexivity.
Qed.

Lemma error_bodies_witness :
  body (fst (serve (DELETE_todo 1) (calm 300) one_deleted))
  = Some (errorMap "Todo item not found.") /\
  body (fst (serve (PUT_todo 1 (Object buy_bread)) (stormy 300) one_todo))
  = Some (errorMap "Database error while fetching item.").
Proof.
  split.
  - destruct (error_bodies (DELETE_todo 1) (calm 300) one_deleted)
      as (H404 & _). apply H404. reflexivity.
  - destruct (error_bodies (PUT_todo 1 (Object buy_bread)) (stormy 300)
                one_todo) as (_ & H500 & _). apply H500. reflexivity.
Defined.

(** X14. A request whose first statement meets a storage failure stores
    nothing, and is answered 500 -- except a create whose body does not
    decode, which is answered 400 before any statement is sent. *)
Theorem first_failure_is_500 (rq : Request) (e : Env) (s : Store) :
  fails e 0 = true ->
  snd (serve rq e s) = s /\
  (status (fst (serve rq e s)) = StatusInternalServerError \/
   (exists err, rq = POST_todos (Malformed err)) /\
   status (fst (serve rq e s)) = StatusBadRequest).
Proof.
  intros Hdown. destruct rq as [b| |id|id b|id].
  - rewrite serve_POST_todos. destruct b as [err|o]; cbn [ReadJSON].
    + split; [reflexivity|]. right. split; [now exists err | reflexivity].
    + cbv zeta. rewrite Hdown. split; [reflexivity | now left].
  - rewrite serve_GET_todos, Hdown. split; [reflexivity | now left].
  - rewrite serve_GET_todo, Hdown. split; [reflexivity | now left].
  - rewrite serve_PUT_todo, Hdown. split; [reflexivity | now left].
  - rewrite serve_DELETE_todo, Hdown. split; [reflexivity | now left].
Qed.

Lemma first_failure_is_500_witness :
  snd (serve (DELETE_todo 1) (stormy 300) one_todo) = one_todo /\
  status (fst (serve (PUT_todo 1 (Malformed "unexpected EOF")) (stormy 300)
                 one_todo)) = StatusInternalServerError.
Proof.
  split.
  - apply (first_failure_is_500 (DELETE_todo 1) (stormy 300) one_todo).
    reflexivity.
  - destruct (first_failure_is_500 (PUT_todo 1 (Malformed "unexpected EOF"))
                (stormy 300) one_todo eq_refl) as [_ [H500|[[err Hrq] _]]].
    + exact H500.
    + discriminate.
Defined.

(** ** What every reachable table looks like *)



(** X4. No request removes a row: the table keeps its length, except after
    a create answered 201, which adds exactly one row. *)
Theorem table_only_grows (rq : Request) (e : Env) (s : Store) :
  let s' := snd (serve rq e s) in
  List.length (rows s') = List.length (rows s) \/
  (List.length (rows s') = S (List.length (rows s)) /\
   (exists b, rq = POST_todos b) /\
   status (fst (serve rq e s)) = StatusCreated).
Proof.
  destruct rq as [b| |id|id b|id]; cbv zeta.
  - rewrite serve_POST_todos. destruct (ReadJSON b) as [err|v]; [now left|].
    cbv zeta. destruct (fails e 0); [now left|].
    destruct (N.ltb max_rowid _); [now left|].
    destruct (negb _ && key_taken _ _); [now left|].
    right. cbn [fst snd rows]. rewrite length_insert_row.
    split; [reflexivity|]. split; [now exists b | reflexivity].
  - rewrite serve_GET_todos. now left.
  - rewrite serve_GET_todo. now left.
  - rewrite serve_PUT_todo. left. destruct (fails e 0); [reflexivity|].
    destruct (find _ (rows s)) as [old|]; [|reflexivity].
    destruct (ReadJSON b) as [err|v]; [reflexivity|].
    cbn [snd]. unfold update_store.
    destruct (update_refused e s old v); [reflexivity|].
    cbn [rows]. apply length_rewrite_rows.
  - rewrite serve_DELETE_todo. left. destruct (fails e 0); [reflexivity|].
    cbn [snd rows]. apply length_map.
Qed.

(** X6. A create whose body carries the id of a row of the table, deleted
    or not, is answered 500 and stores nothing. *)
Theorem create_on_taken_id (o : TodoObject) (e : Env) (s : Store)
  (r : Todo) :
  In r (rows s) -> ID r <> 0%N -> j_id o = Some (ID r) ->
  serve (POST_todos (Object o)) e s
  = (StopWithJSON StatusInternalServerError
       (errorMap "Failed to create Todo item in database."), s).
Proof.
  intros Hin Hnz Hid. rewrite serve_POST_todos. cbn [ReadJSON]. cbv zeta.
  destruct (fails e 0); [reflexivity|].
  change (ID (stamp (now e) (decode o))) with (or_zero 0%N (j_id o)).
  rewrite Hid. cbn [or_zero]. apply N.eqb_neq in Hnz. rewrite Hnz.
  destruct (N.ltb max_rowid (ID r)); [reflexivity|]. cbn [negb andb].
  assert (key_taken (ID r) (rows s) = true) as ->; [|reflexivity].
  apply existsb_exists. exists r. split; [exact Hin | apply N.eqb_refl].
Qed.

Lemma create_on_taken_id_witness :
  status (fst (serve (POST_todos (Object milk_again)) (calm 300)
                 one_deleted)) = StatusInternalServerError.
Proof.
  rewrite (create_on_taken_id milk_again (calm 300) one_deleted milk_deleted
             (or_introl eq_refl)); [reflexivity | discriminate | reflexivity].
Defined.

(** ** What a delete leaves of the record *)

(** X13. A delete answered 204 removes nothing from the table: the record
    is still there under its id, with deleted_at set to the time of the
    delete and every other column as it was. *)
Theorem delete_keeps_the_row (id : N) (e : Env) (s : Store) (old : Todo) :
  holds s old -> ID old = id -> fails e 0 = false ->
  status (fst (serve (DELETE_todo id) e s)) = StatusNoContent /\
  exists r, In r (rows (snd (serve (DELETE_todo id) e s))) /\
            DeletedAt r = Some (now e) /\
            ID r = id /\ CreatedAt r = CreatedAt old /\
            UpdatedAt r = UpdatedAt old /\ Title r = Title old /\
            Description r = Description old /\ Completed r = Completed old.
Proof.
  intros [Hin Hlive] <- Hok. rewrite serve_DELETE_todo, Hok. cbn [fst snd].
  pose proof (selects_own old Hlive) as Hsel.
  split.
  - destruct (filter (selects zero (ID old)) (rows s)) as [|d ds] eqn:E;
      [|reflexivity].
    assert (In old (filter (selects zero (ID old)) (rows s))) as Hf
      by (apply filter_In; now split).
    rewrite E in Hf. destruct Hf.
  - exists (mark_deleted (now e) old). split.
    + cbn [rows]. apply in_map_iff. exists old. now rewrite Hsel.
    + cbn. repeat split.
Qed.

Lemma delete_keeps_the_row_witness :
  exists r, In r (rows one_deleted) /\ DeletedAt r = Some 200%Z /\
            Title r = "Buy milk"%string.
Proof.
  destruct (delete_keeps_the_row 1 (calm 200) one_todo
              {| ID := 1; CreatedAt := 100; UpdatedAt := 100;
                 DeletedAt := None; Title := "Buy milk";
                 Description := EmptyString; Completed := false |}
              (conj (or_introl eq_refl) eq_refl) eq_refl eq_refl)
    as (_ & r & Hin & Hdel & _ & _ & _ & Htitle & _).
  exists r. split; [exact Hin|]. split; [exact Hdel | exact Htitle].
Defined.

(** ** Create, then read *)

(** X7. Round trip: after a create answered 201 in a reachable store, a
    get-by-id on the id of the returned item that meets no storage failure
    is answered 200 with the very body the create returned. *)
Theorem create_then_get (b : Body) (e e' : Env) (s : Store) :
  reachable s ->
  status (fst (serve (POST_todos b) e s)) = StatusCreated ->
  fails e' 0 = false ->
  exists t,
    fst (serve (POST_todos b) e s)
    = WriteJSON (marshalTodo t) (StatusCode StatusCreated fresh) /\
    fst (serve (GET_todo (ID t)) e' (snd (serve (POST_todos b) e s)))
    = WriteJSON (marshalTodo t) fresh.
Proof.
  intros Hreach H201 Hok.
  pose proof (reachable_keyed _ (reach_serve (POST_todos b) e s Hreach)) as Hk.
  revert H201 Hk. rewrite serve_POST_todos.
  destruct b as [err|o]; cbn [ReadJSON]; [discriminate|]. cbv zeta.
  destruct (fails e 0); [discriminate|].
  destruct (N.ltb max_rowid _) eqn:Efit; [discriminate|].
  destruct (negb _ && key_taken _ _); [discriminate|].
  cbn [fst snd]. intros _ Hk. apply N.ltb_ge in Efit.
  set (t := with_id _ _) in *. exists t. split; [reflexivity|].
  rewrite serve_GET_todo, Hok. cbn [fst].
  rewrite (keyed_find _ t Hk); [reflexivity | | exact Efit].
  split; [cbn [rows]; apply In_insert_row; now left | reflexivity].
Qed.

Lemma create_then_get_witness :
  exists t,
    fst (serve (GET_todo (ID t)) (calm 400)
           (snd (serve (POST_todos (Object buy_milk)) (calm 300)
                   one_deleted)))
    = WriteJSON (marshalTodo t) fresh.
Proof.
  destruct (create_then_get (Object buy_milk) (calm 300) (calm 400)
              one_deleted one_deleted_reachable eq_refl eq_refl)
    as (t & _ & Hget).
  now exists t.
Defined.

(** X8. After a create answered 201, the list holds the records it held
    before and the returned item, one record more. *)
Theorem create_then_list (b : Body) (e e' : Env) (s : Store) :
  status (fst (serve (POST_todos b) e s)) = StatusCreated ->
  fails e' 0 = false ->
  exists t l l',
    body (fst (serve (POST_todos b) e s)) = Some (marshalTodo t) /\
    listed (fst (serve GET_todos e' s)) l /\
    listed (fst (serve GET_todos e' (snd (serve (POST_todos b) e s)))) l' /\
    (forall x, In x l' <-> In x l \/ x = t) /\
    List.length l' = S (List.length l).
Proof.
  intros H201 Hok. revert H201. rewrite serve_POST_todos.
  destruct b as [err|o]; cbn [ReadJSON]; [discriminate|]. cbv zeta.
  destruct (fails e 0); [discriminate|].
  destruct (N.ltb max_rowid _); [discriminate|].
  destruct (negb _ && key_taken _ _); [discriminate|].
  cbn [fst snd]. intros _. set (t := with_id _ _).
  assert (live t = true) as Hlive by reflexivity.
  exists t, (filter live (rows s)), (filter live (insert_row t (rows s))).
  split; [reflexivity|]. rewrite !serve_GET_todos, Hok. cbn [fst rows].
  split; [reflexivity|]. split; [reflexivity|].
  split.
  - intros x. rewrite !filter_In, In_insert_row. split.
    + intros [[->|Hx] Hl]; [now right | now left].
    + intros [[Hx Hl]| ->]; [split; [now right | exact Hl]|].
      split; [now left | exact Hlive].
  - now rewrite count_insert_row, Hlive.
Qed.

Lemma create_then_list_witness :
  exists t l',
    listed (fst (serve GET_todos (calm 400)
                   (snd (serve (POST_todos (Object buy_milk)) (calm 300)
                           one_deleted)))) l' /\
    In t l' /\ 0 < List.length l'.
Proof.
  destruct (create_then_list (Object buy_milk) (calm 300) (calm 400)
              one_deleted eq_refl eq_refl)
    as (t & l & l' & _ & _ & Hl' & Hin & Hlen).
  exists t, l'. split; [exact Hl'|]. split; [apply Hin; now right|].
  rewrite Hlen. lia.
Defined.

(** ** Update, then read *)

Lemma update_store_plain e s x o :
  ID x <> 0%N -> ID (decode o) = 0%N -> fails e 1 = false ->
  update_store e s x (decode o)
  = {| rows := map (fun r => if targets x r
                             then assign (now e) (decode o) r else r)
                   (rows s);
       seq := seq s |}.
Proof.
  intros Hnz Hnoid Hok1. apply N.eqb_neq in Hnz.
  unfold update_store, update_refused, update_moves, rewrite_rows.
  now rewrite Hok1, Hnz, Hnoid.
Qed.

Lemma selects_assign t o x id r :
  ID (decode o) = 0%N ->
  selects zero id (if targets x r then assign t (decode o) r else r)
  = selects zero id r.
Proof.
  intros Hnoid. destruct (targets x r); [|reflexivity].
  rewrite !selects_zero, live_assign by reflexivity.
  unfold inline_condition, assign; cbn [ID]. now rewrite Hnoid.
Qed.

Lemma found_after_update e s id x o :
  find (selects zero id) (rows s) = Some x -> ID (decode o) = 0%N ->
  find (selects zero id)
    (map (fun r => if targets x r then assign (now e) (decode o) r else r)
       (rows s))
  = Some (assign (now e) (decode o) x).
Proof.
  intros Hx Hnoid. rewrite find_update.
  - rewrite Hx. cbn [option_map]. apply find_selects_holds in Hx as [_ Hl].
    unfold targets. rewrite N.eqb_refl.
    now rewrite (proj2 (live_spec x) Hl).
  - intros r. now apply selects_assign.
Qed.

(** X11. When an update of an existing id, with a body that carries no
    non-zero id, meets no storage failure in any of its three statements,
    its 200 body is the body a get-by-id on that id gives right after. *)
Theorem update_response_is_stored (id : N) (o : TodoObject) (e e' : Env)
  (s : Store) (old : Todo) :
  reachable s -> holds s old -> ID old = id ->
  ID (decode o) = 0%N ->
  fails e 0 = false -> fails e 1 = false -> fails e 2 = false ->
  fails e' 0 = false ->
  fst (serve (PUT_todo id (Object o)) e s)
  = fst (serve (GET_todo id) e' (snd (serve (PUT_todo id (Object o)) e s))).
Proof.
  intros Hreach Hold <- Hnoid Hok0 Hok1 Hok2 Hok'.
  destruct (present_found (ID old) s) as [x Hx].
  { exists old. destruct Hold as [Hin Hl]. now repeat split. }
  pose proof (find_selects_holds _ s x Hx) as Hxs.
  pose proof (reachable_nonzero_keys s Hreach x (proj1 Hxs)) as Hnz.
  rewrite serve_PUT_todo, Hok0, Hx. cbn [ReadJSON fst snd].
  rewrite serve_GET_todo, Hok'. cbn [fst].
  unfold update_shown. rewrite (update_store_plain e s x o Hnz Hnoid Hok1).
  cbn [rows]. rewrite (found_after_update e s (ID old) x o Hx Hnoid).
  apply N.eqb_neq in Hnz. rewrite Hnz, Hok2.
  set (new := assign (now e) (decode o) x).
  rewrite (find_refine (selects zero (ID old)) (selects new (ID old)) _ new).
  - reflexivity.
  - apply (found_after_update e s (ID old) x o Hx Hnoid).
  - intros r Hr. rewrite selects_zero. unfold selects in Hr.
    apply andb_prop in Hr as [Hr Hc]. apply andb_prop in Hr as [Hl _].
    now rewrite Hl, Hc.
  - pose proof (found_after_update e s (ID old) x o Hx Hnoid) as Hnew.
    apply find_some in Hnew as [_ Hnew]. rewrite selects_zero in Hnew.
    apply andb_prop in Hnew as [Hl Hc]. unfold selects, same_key.
    fold new in Hl, Hc. rewrite Hl, Hc, N.eqb_refl. now rewrite orb_true_r.
Qed.

Lemma update_response_is_stored_witness :
  fst (serve (PUT_todo 1 (Object buy_bread)) (calm 300) one_todo)
  = fst (serve (GET_todo 1) (calm 400)
           (snd (serve (PUT_todo 1 (Object buy_bread)) (calm 300) one_todo))).
Proof.
  apply (update_response_is_stored 1 buy_bread (calm 300) (calm 400)
           one_todo
           {| ID := 1; CreatedAt := 100; UpdatedAt := 100; DeletedAt := None;
              Title := "Buy milk"; Description := EmptyString;
              Completed := false |} one_todo_reachable);
    try reflexivity.
  split; [left; reflexivity | reflexivity].
Defined.

Lemma assign_twice t1 t2 v r :
  assign t2 v (assign t1 v r) = assign t2 v r.
Proof.
  unfold assign; cbn. f_equal.
  - now destruct (N.eqb (ID v) 0).
  - now destruct (IsZero (CreatedAt v)).
  - now destruct (DeletedAt v).
  - now destruct (String.eqb (Title v) EmptyString).
  - now destruct (String.eqb (Description v) EmptyString).
  - now destruct (Completed v).
Qed.

(** X12. Repeating an update adds nothing but the later time: for an
    existing id and a body that carries no non-zero id, with no storage
    failure, the store after the update done twice is the store after the
    second one done alone. *)
Theorem update_twice (id : N) (o : TodoObject) (e1 e2 : Env) (s : Store)
  (old : Todo) :
  reachable s -> holds s old -> ID old = id ->
  ID (decode o) = 0%N ->
  fails e1 0 = false -> fails e1 1 = false ->
  fails e2 0 = false -> fails e2 1 = false ->
  snd (serve (PUT_todo id (Object o)) e2
         (snd (serve (PUT_todo id (Object o)) e1 s)))
  = snd (serve (PUT_todo id (Object o)) e2 s).
Proof.
  intros Hreach Hold <- Hnoid H10 H11 H20 H21.
  destruct (present_found (ID old) s) as [x Hx].
  { exists old. destruct Hold as [Hin Hl]. now repeat split. }
  pose proof (find_selects_holds _ s x Hx) as Hxs.
  pose proof (reachable_nonzero_keys s Hreach x (proj1 Hxs)) as Hnz.
  set (new := assign (now e1) (decode o) x).
  assert (ID new = ID x) as Hid.
  { unfold new, assign; cbn [ID]. now rewrite Hnoid. }
  rewrite !(serve_PUT_todo (ID old) (Object o) _ s).
  rewrite H10, H20, Hx. cbn [ReadJSON snd].
  rewrite (update_store_plain e1 s x o Hnz Hnoid H11).
  rewrite (update_store_plain e2 s x o Hnz Hnoid H21).
  rewrite serve_PUT_todo, H20. cbn [rows].
  rewrite (found_after_update e1 s (ID old) x o Hx Hnoid).
  cbn [ReadJSON snd]. fold new.
  rewrite (update_store_plain e2 _ new o); [|now rewrite Hid | exact Hnoid
                                           | exact H21].
  cbn [rows seq]. f_equal.
  rewrite map_map. apply map_ext. intros r.
  assert (forall y, targets new y = targets x y) as Ht.
  { intros y. unfold targets. now rewrite Hid. }
  rewrite Ht. destruct (targets x r) eqn:Er.
  - assert (targets x (assign (now e1) (decode o) r) = true) as ->.
    { unfold targets in *. rewrite live_assign by reflexivity.
      unfold assign; cbn [ID]. now rewrite Hnoid. }
    apply assign_twice.
  - now rewrite Er.
Qed.

Lemma update_twice_witness :
  snd (serve (PUT_todo 1 (Object buy_bread)) (calm 400)
         (snd (serve (PUT_todo 1 (Object buy_bread)) (calm 300) one_todo)))
  = snd (serve (PUT_todo 1 (Object buy_bread)) (calm 400) one_todo).
Proof.
  apply (update_twice 1 buy_bread (calm 300) (calm 400) one_todo
           {| ID := 1; CreatedAt := 100; UpdatedAt := 100; DeletedAt := None;
              Title := "Buy milk"; Description := EmptyString;
              Completed := false |} one_todo_reachable);
    try reflexivity.
  split; [left; reflexivity | reflexivity].
Defined.

(** * The claims on lookups by id *)

(** ** List *)

(** C4. A list request that meets no storage failure answers 200 with a
    JSON array that shows, member by member, exactly the non-deleted
    records; with no such record the body is the empty array. *)
Theorem GetTodos_lists_live (e : Env) (s : Store) :
  fails e 0 = false ->
  let r := fst (serve GET_todos e s) in
  status r = StatusOK /\
  (exists js l, body r = Some (JArray js) /\ Forall2 shows js l /\
                l = filter live (rows s) /\
                forall t, In t l <-> holds s t) /\
  ((forall t, ~ holds s t) -> body r = Some (JArray [])).
Proof.
  intros Hok. rewrite serve_GET_todos, Hok. cbn [fst].
  split; [reflexivity|]. split.
  - exists (map marshalTodo (filter live (rows s))), (filter live (rows s)).
    split; [reflexivity|]. split.
    { induction (filter live (rows s)) as [|t l IH]; cbn [map];
        constructor; [apply marshalTodo_shows | exact IH]. }
    split; [reflexivity|]. intros t. split.
    + intros H. apply filter_In in H as [Hin Hl]. split; [exact Hin|].
      now apply live_spec.
    + intros [Hin Hl]. apply filter_In. split; [exact Hin|].
      now apply live_spec.
  - intros Hnone. cbn.
    assert (filter live (rows s) = []) as ->; [|reflexivity].
    destruct (filter live (rows s)) as [|t l] eqn:E; [reflexivity|].
    exfalso. apply (Hnone t).
    assert (In t (filter live (rows s))) as Hin by (rewrite E; now left).
    apply filter_In in Hin as [Hin Hl]. split; [exact Hin|].
    now apply live_spec.
Qed.

Lemma GetTodos_lists_live_witness :
  body (fst (serve GET_todos (calm 300) two_todos))
  = Some (JArray [ item 1 100 100 "Buy milk" EmptyString false;
                   item 2 150 150 "Buy bread" EmptyString false ]) /\
  body (fst (serve GET_todos (calm 300) one_deleted)) = Some (JArray []).
Proof.
  split.
  - destruct (GetTodos_lists_live (calm 300) two_todos eq_refl)
      as (_ & (js & l & Hbody & Hshows & Hl & _) & _).
    rewrite Hbody. subst l. vm_compute in Hshows.
    inversion Hshows as [|j1 t1 js1 l1 H1 Hrest1]; subst.
    inversion Hrest1 as [|j2 t2 js2 l2 H2 Hrest2]; subst.
    inversion Hrest2; subst. reflexivity.
  - apply (GetTodos_lists_live (calm 300) one_deleted); [reflexivity|].
    intros t [Hin Hl]. vm_compute in Hin.
    destruct Hin as [<-|[]]. discriminate.
Defined.

(** ** Path parameters that are not an [int] *)

(** C6. GET /todos/9223372036854775808 on the table holding the one record
    1: no record has that id, and the answer is not 404 but 200, with
    record 1. *)
Theorem GetTodoByID_beyond_int :
  ~ present beyond_int one_todo /\
  fst (serve (GET_todo beyond_int) (calm 300) one_todo)
  = {| status := StatusOK;
       body := Some (item 1 100 100 "Buy milk" EmptyString false) |}.
Proof.
  split; [|reflexivity].
  intros (t & Hin & _ & Hid). vm_compute in Hin.
  destruct Hin as [<-|[]]. discriminate.
Qed.


(** C7. PUT /todos/9223372036854775808 on the table holding the one
    record 1: no record has that id, yet a well-formed body is answered 200
    and rewrites record 1, and a malformed body is answered 400. *)
Theorem UpdateTodo_beyond_int :
  ~ present beyond_int one_todo /\
  serve (PUT_todo beyond_int (Object buy_bread)) (calm 300) one_todo
  = ({| status := StatusOK;
        body := Some (item 1 100 300 "Buy bread" EmptyString false) |},
     {| rows := [ {| ID := 1; CreatedAt := 100; UpdatedAt := 300;
                     DeletedAt := None; Title := "Buy bread";
                     Description := EmptyString; Completed := false |} ];
        seq := 1 |}) /\
  status (fst (serve (PUT_todo beyond_int (Malformed "unexpected EOF"))
                 (calm 300) one_todo)) = StatusBadRequest.
Proof.
  split; [|split; reflexivity].
  intros (t & Hin & _ & Hid). vm_compute in Hin.
  destruct Hin as [<-|[]]. discriminate.
Qed.

Lemma restocked_reachable : reachable restocked.
Proof.
  apply reach_serve, reach_serve, reach_serve, reach_serve,
    one_todo_reachable.
Qed.

(** C2. In the reachable table [restocked] the record [bread_gone] is
    deleted, yet an update and a delete on its id are not answered 404:
    the update is answered 200 and the delete 204, and each rewrites the
    live record 3. *)
Theorem soft_deleted_id_reaches_live_row :
  reachable restocked /\
  rows restocked = [ bread_gone; mark_deleted 400 milk; milk_third ] /\
  DeletedAt bread_gone <> None /\
  status (fst (serve (PUT_todo (ID bread_gone) (Object buy_bread)) (calm 600)
                 restocked)) = StatusOK /\
  rows (snd (serve (PUT_todo (ID bread_gone) (Object buy_bread)) (calm 600)
               restocked))
  = [ bread_gone; mark_deleted 400 milk;
      {| ID := 3; CreatedAt := 500; UpdatedAt := 600; DeletedAt := None;
         Title := "Buy bread"; Description := EmptyString;
         Completed := false |} ] /\
  serve (DELETE_todo (ID bread_gone)) (calm 600) restocked
  = ({| status := StatusNoContent; body := None |},
     {| rows := [ bread_gone; mark_deleted 400 milk;
                  mark_deleted 600 milk_third ];
        seq := 3 |}).
Proof.
  split; [exact restocked_reachable|].
  split; [reflexivity|]. split; [discriminate|].
  split; [reflexivity|]. split; reflexivity.
Qed.

(** * Lookups by an id that is an [int] *)

Lemma shows_ID j t r : shows j t -> shows j r -> ID t = ID r.
Proof. unfold shows. intros -> H. now injection H. Qed.

Lemma shows_all (l : list Todo) : Forall2 shows (map marshalTodo l) l.
Proof.
  induction l as [|t l IH]; cbn [map]; constructor;
    [apply marshalTodo_shows | exact IH].
Qed.

Lemma serve_lists e s :
  fails e 0 = false ->
  lists (fst (serve GET_todos e s)) (filter live (rows s)).
Proof.
  intros Hok. rewrite serve_GET_todos, Hok. cbn [fst].
  exists (map marshalTodo (filter live (rows s))).
  split; [reflexivity | apply shows_all].
Qed.

(** X15. For an id up to 2^63-1, a get-by-id answers 500 when the lookup
    meets a storage failure, 404 when no non-deleted record has that id,
    and otherwise 200 with a JSON object showing that record. *)
Theorem GetTodoByID_responses (id : N) (e : Env) (s : Store) :
  (id <= max_rowid)%N ->
  let r := fst (serve (GET_todo id) e s) in
  (fails e 0 = true -> status r = StatusInternalServerError) /\
  (fails e 0 = false -> ~ present id s -> status r = StatusNotFound) /\
  (fails e 0 = false -> present id s ->
   status r = StatusOK /\
   exists j t, body r = Some j /\ shows j t /\ holds s t /\ ID t = id).
Proof.
  intros Hid. rewrite serve_GET_todo. cbn [fst]. split; [|split].
  - now intros ->.
  - intros -> Hno. apply (find_selects_absent id s Hid) in Hno.
    now rewrite Hno.
  - intros -> Hyes.
    destruct (find (selects zero id) (rows s)) as [t|] eqn:E.
    + split; [reflexivity|]. exists (marshalTodo t), t.
      apply (find_selects_present id s t Hid) in E as [Hh Hidt].
      split; [reflexivity|]. split; [apply marshalTodo_shows|].
      split; [exact Hh | exact Hidt].
    + apply (find_selects_absent id s Hid) in E. contradiction.
Qed.

Lemma GetTodoByID_responses_witness :
  status (fst (serve (GET_todo 1) (stormy 5) two_todos))
  = StatusInternalServerError /\
  status (fst (serve (GET_todo 3) (calm 5) two_todos)) = StatusNotFound /\
  body (fst (serve (GET_todo 2) (calm 5) two_todos))
  = Some (item 2 150 150 "Buy bread" EmptyString false).
Proof.
  assert (1 <= max_rowid /\ 2 <= max_rowid /\ 3 <= max_rowid)%N
    as (H1 & H2 & H3) by (repeat split; discriminate).
  split; [|split].
  - destruct (GetTodoByID_responses 1 (stormy 5) two_todos H1) as (H & _).
    apply H. reflexivity.
  - destruct (GetTodoByID_responses 3 (calm 5) two_todos H3) as (_ & H & _).
    apply H; [reflexivity|].
    intros (t & Hin & _ & Hid). vm_compute in Hin.
    destruct Hin as [<-|[<-|[]]]; discriminate.
  - destruct (GetTodoByID_responses 2 (calm 5) two_todos H2) as (_ & _ & H).
    destruct H as (_ & j & t & Hbody & Hshows & [Hin _] & Hid);
      [reflexivity
      | exists bread; split; [right; left; reflexivity | split; reflexivity]
      |].
    rewrite Hbody, Hshows. vm_compute in Hin.
    destruct Hin as [<-|[<-|[]]]; [discriminate | reflexivity].
Defined.

(** X16. For an id up to 2^63-1, a delete answers 500 on a storage
    failure, 404 when no non-deleted record has the id, and 204 with an
    empty body otherwise; after a 204 a second delete of the id and a
    get-by-id answer 404, and the list shows no record under that id. *)
Theorem DeleteTodo_soft_deletes (id : N) (e : Env) (s : Store) :
  (id <= max_rowid)%N ->
  let r := fst (serve (DELETE_todo id) e s) in
  let s' := snd (serve (DELETE_todo id) e s) in
  (fails e 0 = true -> status r = StatusInternalServerError) /\
  (fails e 0 = false -> ~ present id s -> status r = StatusNotFound) /\
  (fails e 0 = false -> present id s ->
   status r = StatusNoContent /\ body r = None /\
   forall e', fails e' 0 = false ->
     status (fst (serve (DELETE_todo id) e' s')) = StatusNotFound /\
     status (fst (serve (GET_todo id) e' s')) = StatusNotFound /\
     exists l, lists (fst (serve GET_todos e' s')) l /\
               forall t, In t l -> ID t <> id).
Proof.
  intros Hid. rewrite serve_DELETE_todo. split; [|split].
  - now intros ->.
  - intros -> Hno. apply (filter_selects_nil id s Hid) in Hno. cbn [fst].
    now rewrite Hno.
  - intros -> Hyes. cbn [fst snd].
    destruct (filter (selects zero id) (rows s)) as [|d ds] eqn:E.
    { apply (filter_selects_nil id s Hid) in E. contradiction. }
    split; [reflexivity|]. split; [reflexivity|]. intros e' Hok.
    set (s' := {| rows := _; seq := seq s |}).
    assert (~ present id s') as Hgone.
    { intros (t & Hin & Hl & Hidt). cbn [rows s'] in Hin.
      apply in_map_iff in Hin as (r & Hr & _).
      destruct (selects zero id r) eqn:Er; subst t; [discriminate|].
      rewrite selects_zero, (inline_in_range id r Hid) in Er.
      apply live_spec in Hl. apply N.eqb_eq in Hidt.
      rewrite Hl, Hidt in Er. discriminate. }
    split; [|split].
    + rewrite serve_DELETE_todo, Hok. cbn [fst].
      apply (filter_selects_nil id s' Hid) in Hgone. now rewrite Hgone.
    + rewrite serve_GET_todo, Hok. cbn [fst].
      apply (find_selects_absent id s' Hid) in Hgone. now rewrite Hgone.
    + exists (filter live (rows s')). split; [now apply serve_lists|].
      intros t Hin Hidt. apply filter_In in Hin as [Hin Hl].
      apply Hgone. exists t. split; [exact Hin|].
      split; [now apply live_spec | exact Hidt].
Qed.

Lemma DeleteTodo_soft_deletes_witness :
  status (fst (serve (DELETE_todo 1) (calm 200) one_todo)) = StatusNoContent /\
  status (fst (serve (DELETE_todo 1) (calm 300) one_deleted))
  = StatusNotFound /\
  status (fst (serve (DELETE_todo 1) (stormy 5) one_todo))
  = StatusInternalServerError.
Proof.
  assert (1 <= max_rowid)%N as H1 by discriminate.
  assert (present 1 one_todo) as Hhere.
  { eexists. split; [left; reflexivity|]. split; reflexivity. }
  destruct (DeleteTodo_soft_deletes 1 (calm 200) one_todo H1) as (_ & _ & H).
  destruct (H eq_refl Hhere) as (H204 & _ & Hafter).
  split; [exact H204|]. split; [exact (proj1 (Hafter (calm 300) eq_refl))|].
  destruct (DeleteTodo_soft_deletes 1 (stormy 5) one_todo H1) as (H500 & _).
  apply H500. reflexivity.
Defined.

(** X17. For an id up to 2^63-1, the update handler looks the record up
    before it decodes the body: with no non-deleted record under the id
    the answer is 404 whatever the body is, and a 400 is only ever given
    when the record exists (and is given for a malformed body then). *)
Theorem UpdateTodo_lookup_first (id : N) (b : Body) (e : Env) (s : Store) :
  (id <= max_rowid)%N ->
  let r := fst (serve (PUT_todo id b) e s) in
  (fails e 0 = false -> ~ present id s -> status r = StatusNotFound) /\
  (status r = StatusBadRequest ->
   present id s /\ fails e 0 = false /\ exists err, b = Malformed err) /\
  (fails e 0 = false -> present id s -> (exists err, b = Malformed err) ->
   status r = StatusBadRequest).
Proof.
  intros Hid. rewrite serve_PUT_todo. split; [|split].
  - intros -> Hno. apply (find_selects_absent id s Hid) in Hno.
    now rewrite Hno.
  - destruct (fails e 0); [discriminate|].
    destruct (find (selects zero id) (rows s)) as [old|] eqn:E;
      [|discriminate].
    apply (find_selects_present id s old Hid) in E as [[Hin Hl] Hidt].
    destruct b as [err|o]; cbn [ReadJSON fst]; [|discriminate].
    intros _. split; [now exists old|]. split; [reflexivity|]. now exists err.
  - intros -> Hyes [err ->].
    destruct (present_found id s Hyes) as [x Hx]. now rewrite Hx.
Qed.

Lemma UpdateTodo_lookup_first_witness :
  status (fst (serve (PUT_todo 1 (Malformed "unexpected EOF")) (calm 300)
                 one_deleted)) = StatusNotFound /\
  status (fst (serve (PUT_todo 1 (Object buy_bread)) (calm 300)
                 one_deleted)) = StatusNotFound /\
  status (fst (serve (PUT_todo 1 (Malformed "unexpected EOF")) (calm 300)
                 one_todo)) = StatusBadRequest /\
  present 1 one_todo.
Proof.
  assert (1 <= max_rowid)%N as H1 by discriminate.
  assert (~ present 1 one_deleted) as Hgone.
  { intros (t & Hin & Hl & _). vm_compute in Hin.
    destruct Hin as [<-|[]]. discriminate. }
  assert (present 1 one_todo) as Hhere.
  { eexists. split; [left; reflexivity|]. split; reflexivity. }
  destruct (UpdateTodo_lookup_first 1 (Malformed "unexpected EOF") (calm 300)
              one_deleted H1) as (Ha & _ & _).
  destruct (UpdateTodo_lookup_first 1 (Object buy_bread) (calm 300)
              one_deleted H1) as (Hb & _ & _).
  destruct (UpdateTodo_lookup_first 1 (Malformed "unexpected EOF") (calm 300)
              one_todo H1) as (_ & Hc & Hd).
  assert (status (fst (serve (PUT_todo 1 (Malformed "unexpected EOF"))
                         (calm 300) one_todo)) = StatusBadRequest) as H400.
  { apply Hd; [reflexivity | exact Hhere |].
    now exists "unexpected EOF"%string. }
  split; [now apply Ha|]. split; [now apply Hb|]. split; [exact H400|].
  exact (proj1 (Hc H400)).
Defined.

Lemma deleted_key_absent s r :
  keyed s -> In r (rows s) -> DeletedAt r <> None -> ~ present (ID r) s.
Proof.
  intros Hk Hin Hdead (t & Ht & Hl & Hid).
  rewrite (keyed_unique s r t Hk Hin Ht Hid) in Hl. contradiction.
Qed.

(** X18. In every reachable store, a record whose deletedAt is set is
    shown by no list body and by no get-by-id body, and stays in the table
    whatever request comes; when its id is at most 2^63-1, get-by-id,
    update and delete on that id answer 404 (500 if the statement itself
    fails) and leave the store alone. *)
Theorem soft_deleted_is_hidden (s : Store) (r : Todo) (e : Env) :
  reachable s -> In r (rows s) -> DeletedAt r <> None ->
  (forall js j, body (fst (serve GET_todos e s)) = Some (JArray js) ->
                In j js -> ~ shows j r) /\
  (forall id j, body (fst (serve (GET_todo id) e s)) = Some j ->
                ~ shows j r) /\
  (forall rq, In r (rows (snd (serve rq e s)))) /\
  ((ID r <= max_rowid)%N ->
   status (fst (serve (GET_todo (ID r)) e s)) = missing_status e /\
   (forall b, status (fst (serve (PUT_todo (ID r) b) e s)) = missing_status e
              /\ snd (serve (PUT_todo (ID r) b) e s) = s) /\
   status (fst (serve (DELETE_todo (ID r)) e s)) = missing_status e /\
   snd (serve (DELETE_todo (ID r)) e s) = s).
Proof.
  intros Hreach Hin Hdead. pose proof (reachable_keyed s Hreach) as Hk.
  pose proof (deleted_key_absent s r Hk Hin Hdead) as Habsent.
  assert (forall t, holds s t -> ~ shows (marshalTodo t) r) as Hother.
  { intros t [Ht Hl] Hs.
    pose proof (shows_ID _ t r (marshalTodo_shows t) Hs) as Hid.
    rewrite (keyed_unique s r t Hk Hin Ht Hid) in Hl. contradiction. }
  unfold missing_status. split; [|split; [|split]].
  - intros js j. rewrite serve_GET_todos. destruct (fails e 0); [discriminate|].
    cbn [fst WriteJSON body]. intros H. injection H as <-.
    intros Hj. apply in_map_iff in Hj as (t & <- & Ht).
    apply filter_In in Ht as [Ht Hlive]. apply Hother.
    split; [exact Ht | now apply live_spec].
  - intros id j. rewrite serve_GET_todo. destruct (fails e 0).
    { cbn. intros H. injection H as <-. discriminate. }
    cbn [fst]. destruct (find (selects zero id) (rows s)) as [t|] eqn:E.
    + cbn [WriteJSON body]. intros H. injection H as <-.
      apply Hother. now apply find_selects_holds in E.
    + cbn. intros H. injection H as <-. discriminate.
  - intros rq. apply deleted_retained; [exact Hin | now apply not_live].
  - intros Hfit.
    pose proof (proj2 (find_selects_absent (ID r) s Hfit) Habsent) as Hfind.
    pose proof (proj2 (filter_selects_nil (ID r) s Hfit) Habsent) as Hnil.
    split; [|split; [|split]].
    + rewrite serve_GET_todo, Hfind. now destruct (fails e 0).
    + intros b. rewrite serve_PUT_todo, Hfind. now destruct (fails e 0).
    + rewrite serve_DELETE_todo, Hnil. now destruct (fails e 0).
    + rewrite serve_DELETE_todo. destruct (fails e 0); [reflexivity|].
      cbn [snd]. rewrite update_untouched; [apply store_eta|].
      intros t Ht. apply (find_none _ _ Hfind t Ht).
Qed.

Lemma soft_deleted_is_hidden_witness :
  status (fst (serve (PUT_todo 1 (Object buy_bread)) (calm 300) one_deleted))
  = StatusNotFound /\
  status (fst (serve (DELETE_todo 1) (calm 300) one_deleted))
  = StatusNotFound /\
  In milk_deleted (rows (snd (serve (DELETE_todo 1) (calm 300) one_deleted))).
Proof.
  assert (In milk_deleted (rows one_deleted)) as Hin by (left; reflexivity).
  destruct (soft_deleted_is_hidden one_deleted milk_deleted (calm 300)
              one_deleted_reachable Hin ltac:(discriminate))
    as (_ & _ & Hkept & Hid).
  destruct Hid as (_ & Hput & Hdel & _); [discriminate|].
  split; [exact (proj1 (Hput (Object buy_bread)))|].
  split; [exact Hdel | exact (Hkept (DELETE_todo 1))].
Defined.

(** ** Deletion is for good *)




(** ** Requests leave the other records alone *)




Section RowRewrite.

Variables (p : Todo -> bool) (g : Todo -> Todo).



End RowRewrite.

(** X9. For ids up to 2^63-1: a delete of one id changes the answer of
    get-by-id for no other id, and takes out of the list exactly the
    records under that id. *)
Theorem delete_leaves_others (id id' : N) (e e' : Env) (s : Store) :
  (id <= max_rowid)%N -> (id' <= max_rowid)%N -> id' <> id ->
  fst (serve (GET_todo id') e' (snd (serve (DELETE_todo id) e s)))
  = fst (serve (GET_todo id') e' s) /\
  (fails e 0 = false -> fails e' 0 = false ->
   exists l l',
     lists (fst (serve GET_todos e' s)) l /\
     lists (fst (serve GET_todos e' (snd (serve (DELETE_todo id) e s)))) l' /\
     forall x, In x l' <-> In x l /\ ID x <> id).
Proof.
  intros Hid Hid' Hne. rewrite serve_DELETE_todo. split.
  - destruct (fails e 0); [reflexivity|]. cbn [snd].
    rewrite !serve_GET_todo. cbn [fst rows].
    rewrite find_frame; [reflexivity| |].
    + intros r _. destruct (selects zero id r) eqn:E; [|reflexivity].
      apply (selects_spec zero id r Hid) in E as [_ E].
      rewrite !selects_zero, !(inline_in_range id' _ Hid').
      cbn [mark_deleted ID].
      assert (N.eqb (ID r) id' = false) as -> by (apply N.eqb_neq; congruence).
      now rewrite !andb_false_r.
    + intros r _ Hsel. destruct (selects zero id r) eqn:E; [|reflexivity].
      apply (selects_spec zero id' r Hid') in Hsel as [_ H1].
      apply (selects_spec zero id r Hid) in E as [_ H2].
      congruence.
  - intros -> Hok. cbn [snd].
    set (s' := {| rows := _; seq := seq s |}).
    exists (filter live (rows s)), (filter live (rows s')).
    split; [now apply serve_lists|]. split; [now apply serve_lists|].
    intros x. cbn [rows s']. rewrite !filter_In, in_map_iff. split.
    + intros [(r & <- & Hr) Hlive].
      destruct (selects zero id r) eqn:E; [discriminate|].
      repeat split; [exact Hr | exact Hlive |].
      intros Hidr. rewrite selects_zero, Hlive in E.
      rewrite (inline_in_range id r Hid) in E.
      apply N.eqb_eq in Hidr. rewrite Hidr in E. discriminate.
    + intros [[Hr Hlive] Hidx].
      assert (selects zero id x = false) as E.
      { rewrite selects_zero, Hlive, (inline_in_range id x Hid).
        now apply N.eqb_neq. }
      split; [|exact Hlive]. exists x. now rewrite E.
Qed.

Lemma delete_leaves_others_witness :
  status (fst (serve (DELETE_todo 2) (calm 300) two_todos))
  = StatusNoContent /\
  fst (serve (GET_todo 1) (calm 400)
         (snd (serve (DELETE_todo 2) (calm 300) two_todos)))
  = fst (serve (GET_todo 1) (calm 400) two_todos) /\
  status (fst (serve (GET_todo 1) (calm 400) two_todos)) = StatusOK.
Proof.
  split; [reflexivity|]. split; [|reflexivity].
  apply (delete_leaves_others 2 1 (calm 300) (calm 400) two_todos);
    discriminate.
Defined.



(** * Update: the merge *)






(** * Create *)

(** C5, as stated, fails: a create whose body carries [id = 7] is answered
    201 with a record under the id 7, the id of the body, where the store
    on its own would have given the id 1. *)
Lemma CreateTodo_takes_body_id :
  j_id milk_numbered = Some 7%N /\
  next_rowid empty = 1%N /\
  serve (POST_todos (Object milk_numbered)) (calm 100) empty
  = ({| status := StatusCreated;
        body := Some (item 7 100 100 "Buy milk" EmptyString false) |},
     {| rows := [ {| ID := 7; CreatedAt := 100; UpdatedAt := 100;
                     DeletedAt := None; Title := "Buy milk";
                     Description := EmptyString; Completed := false |} ];
        seq := 7 |}).
Proof. repeat split. Qed.

Lemma stamp_times (t : Time) (o : TodoObject) :
  overwritten IsZero (j_created_at o) t (CreatedAt (stamp t (decode o))) /\
  overwritten IsZero (j_updated_at o) t (UpdatedAt (stamp t (decode o))).
Proof.
  unfold overwritten, stamp, decode; cbn. split.
  - destruct (j_created_at o) as [a|]; cbn; [|reflexivity].
    now destruct (IsZero a).
  - destruct (j_updated_at o) as [a|]; cbn; [|reflexivity].
    now destruct (IsZero a).
Qed.

Lemma stamp_nonzero (t : Time) (v : Todo) :
  t <> 0%Z ->
  CreatedAt (stamp t v) <> 0%Z /\ UpdatedAt (stamp t v) <> 0%Z.
Proof.
  intros Ht. unfold stamp, IsZero; cbn [CreatedAt UpdatedAt]. split.
  - destruct (Z.eqb_spec (CreatedAt v) 0); assumption.
  - destruct (Z.eqb_spec (UpdatedAt v) 0); assumption.
Qed.

(** C5, amended.  For a create whose body decodes and whose INSERT meets
    no storage failure: when the body carries no non-zero id (and the
    rowids are not used up) the answer is 201 with a JSON object showing
    the stored record, whose id is assigned by the store, is not zero and
    is the id of no row of the table; when the body carries a non-zero id
    of at most 2^63-1 that is free, the answer is 201 with the stored
    record under the id of the body; when the body carries an id above
    2^63-1 the answer is 500 and nothing is stored.  In the two 201 cases
    created_at and updated_at are each the body's value when it supplies a
    non-zero one and the clock reading otherwise, hence not zero unless
    the clock reading is. *)
Theorem CreateTodo_assigns (o : TodoObject) (e : Env) (s : Store) :
  fails e 0 = false ->
  let r := fst (serve (POST_todos (Object o)) e s) in
  let s' := snd (serve (POST_todos (Object o)) e s) in
  (ID (decode o) = 0%N -> (next_rowid s <= max_rowid)%N ->
   status r = StatusCreated /\
   exists j t, body r = Some j /\ shows j t /\ holds s' t /\
               ID t = next_rowid s /\ ID t <> 0%N /\
               (forall x, In x (rows s) -> ID x <> ID t) /\
               overwritten IsZero (j_created_at o) (now e) (CreatedAt t) /\
               overwritten IsZero (j_updated_at o) (now e) (UpdatedAt t) /\
               (now e <> 0%Z -> CreatedAt t <> 0%Z /\ UpdatedAt t <> 0%Z)) /\
  (ID (decode o) <> 0%N -> (ID (decode o) <= max_rowid)%N ->
   (forall x, In x (rows s) -> ID x <> ID (decode o)) ->
   status r = StatusCreated /\
   exists j t, body r = Some j /\ shows j t /\ holds s' t /\
               ID t = ID (decode o) /\
               overwritten IsZero (j_created_at o) (now e) (CreatedAt t) /\
               overwritten IsZero (j_updated_at o) (now e) (UpdatedAt t) /\
               (now e <> 0%Z -> CreatedAt t <> 0%Z /\ UpdatedAt t <> 0%Z)) /\
  ((max_rowid < ID (decode o))%N ->
   status r = StatusInternalServerError /\ s' = s).
Proof.
  intros Hok. rewrite serve_POST_todos. cbn [ReadJSON]. cbv zeta.
  rewrite Hok.
  destruct (stamp_times (now e) o) as [Hc Hu].
  change (ID (stamp (now e) (decode o))) with (ID (decode o)).
  split; [|split].
  - intros Hz Hroom. rewrite Hz. cbn [N.eqb negb andb].
    pose proof Hroom as Hfit. apply N.ltb_ge in Hfit. rewrite Hfit.
    cbn [fst snd]. split; [reflexivity|].
    exists (marshalTodo (with_id (next_rowid s) (stamp (now e) (decode o)))),
           (with_id (next_rowid s) (stamp (now e) (decode o))).
    split; [reflexivity|]. split; [apply marshalTodo_shows|]. split.
    { split; [cbn [rows]; apply In_insert_row; now left | reflexivity]. }
    split; [reflexivity|]. split; [apply next_rowid_pos|].
    split; [intros x Hx; now apply next_rowid_fresh|].
    split; [exact Hc|]. split; [exact Hu|].
    intros Hclock. exact (stamp_nonzero (now e) (decode o) Hclock).
  - intros Hnz Hfit Hfree. apply N.eqb_neq in Hnz. rewrite Hnz.
    apply N.ltb_ge in Hfit. rewrite Hfit. cbn [negb andb].
    apply key_taken_false in Hfree. rewrite Hfree. cbn [fst snd].
    split; [reflexivity|].
    exists (marshalTodo (with_id (ID (decode o)) (stamp (now e) (decode o)))),
           (with_id (ID (decode o)) (stamp (now e) (decode o))).
    split; [reflexivity|]. split; [apply marshalTodo_shows|]. split.
    { split; [cbn [rows]; apply In_insert_row; now left | reflexivity]. }
    split; [reflexivity|]. split; [exact Hc|]. split; [exact Hu|].
    intros Hclock. exact (stamp_nonzero (now e) (decode o) Hclock).
  - intros Hbig.
    assert (N.eqb (ID (decode o)) 0 = false) as ->
      by (apply N.eqb_neq; unfold max_rowid in Hbig; lia).
    apply N.ltb_lt in Hbig. rewrite Hbig. split; reflexivity.
Qed.

Lemma CreateTodo_assigns_witness :
  body (fst (serve (POST_todos (Object buy_milk)) (calm 300) one_deleted))
  = Some (item 2 300 300 "Buy milk" EmptyString false) /\
  status (fst (serve (POST_todos (Object milk_numbered)) (calm 300)
                 one_deleted)) = StatusCreated /\
  status (fst (serve (POST_todos (Object renumber_last)) (calm 300)
                 one_deleted)) = StatusInternalServerError.
Proof.
  destruct (CreateTodo_assigns buy_milk (calm 300) one_deleted eq_refl)
    as (Hauto & _ & _).
  destruct (CreateTodo_assigns milk_numbered (calm 300) one_deleted eq_refl)
    as (_ & Hgiven & _).
  destruct (CreateTodo_assigns renumber_last (calm 300) one_deleted eq_refl)
    as (_ & _ & Hbig).
  split; [|split].
  - destruct Hauto as (_ & j & t & Hbody & Hshows & _ & _);
      [reflexivity | vm_compute; discriminate |].
    rewrite Hbody. vm_compute in Hbody. injection Hbody as <-. reflexivity.
  - apply Hgiven; [discriminate | vm_compute; discriminate |].
    intros x Hin. vm_compute in Hin. destruct Hin as [<-|[]]. discriminate.
  - apply Hbig. reflexivity.
Defined.

(** * The order of the table *)

Lemma ordered_insert v rs :
  StronglySorted row_le rs -> StronglySorted row_le (insert_row v rs).
Proof.
  induction rs as [|r rs IH]; intros Hs; cbn [insert_row].
  - constructor; constructor.
  - apply StronglySorted_inv in Hs as [Hrs Hr].
    destruct (Z.ltb (rowid (ID v)) (rowid (ID r))) eqn:E.
    + apply Z.ltb_lt in E. constructor; [now constructor|].
      constructor; [unfold row_le; lia|].
      apply Forall_forall. intros x Hx.
      pose proof (proj1 (Forall_forall _ _) Hr x Hx) as Hrx.
      unfold row_le in *. lia.
    + apply Z.ltb_ge in E. constructor; [now apply IH|].
      apply Forall_forall. intros x Hx. apply In_insert_row in Hx as [->|Hx].
      * exact E.
      * exact (proj1 (Forall_forall _ _) Hr x Hx).
Qed.

Lemma ordered_filter (q : Todo -> bool) rs :
  StronglySorted row_le rs -> StronglySorted row_le (filter q rs).
Proof.
  induction rs as [|r rs IH]; intros Hs; cbn [filter]; [constructor|].
  apply StronglySorted_inv in Hs as [Hrs Hr].
  destruct (q r); [|now apply IH]. constructor; [now apply IH|].
  apply Forall_forall. intros x Hx. apply filter_In in Hx as [Hx _].
  exact (proj1 (Forall_forall _ _) Hr x Hx).
Qed.

Lemma ordered_map (f : Todo -> Todo) rs :
  (forall r, ID (f r) = ID r) ->
  StronglySorted row_le rs -> StronglySorted row_le (map f rs).
Proof.
  intros Hf. induction rs as [|r rs IH]; intros Hs; cbn [map]; [constructor|].
  apply StronglySorted_inv in Hs as [Hrs Hr].
  constructor; [now apply IH|].
  apply Forall_forall. intros x Hx. apply in_map_iff in Hx as (y & <- & Hy).
  pose proof (proj1 (Forall_forall _ _) Hr y Hy) as Hry.
  unfold row_le in *. now rewrite !Hf.
Qed.

Lemma ordered_fold_insert news base :
  StronglySorted row_le base ->
  StronglySorted row_le (fold_right insert_row base news).
Proof.
  intros Hb. induction news as [|n news IH]; [exact Hb|].
  cbn [fold_right]. now apply ordered_insert.
Qed.

Lemma ordered_serve rq e s : ordered s -> ordered (snd (serve rq e s)).
Proof.
  unfold ordered. intros Ho. destruct rq as [b| |id|id b|id].
  - rewrite serve_POST_todos. destruct (ReadJSON b) as [err|v]; [exact Ho|].
    cbv zeta. destruct (fails e 0); [exact Ho|].
    destruct (N.ltb max_rowid _); [exact Ho|].
    destruct (negb _ && key_taken _ _); [exact Ho|].
    cbn [snd rows]. now apply ordered_insert.
  - now rewrite serve_GET_todos.
  - now rewrite serve_GET_todo.
  - rewrite serve_PUT_todo. destruct (fails e 0); [exact Ho|].
    destruct (find _ (rows s)) as [old|]; [|exact Ho].
    destruct (ReadJSON b) as [err|v]; [exact Ho|].
    cbn [snd]. unfold update_store, update_refused, update_moves.
    destruct (N.eqb (ID old) 0); [exact Ho|].
    destruct (fails e 1); [exact Ho|]. cbn [orb].
    destruct (N.eqb (ID v) 0) eqn:Ez; cbn [negb andb rows].
    + unfold rewrite_rows. apply ordered_map; [|exact Ho].
      intros r. destruct (targets old r); [|reflexivity].
      unfold assign; cbn [ID]. now rewrite Ez.
    + destruct (N.eqb (ID v) (ID old)) eqn:Eo; cbn [negb andb rows].
      * unfold rewrite_rows. apply ordered_map; [|exact Ho].
        intros r. destruct (targets old r) eqn:Et; [|reflexivity].
        apply targets_spec in Et as [_ Et]. unfold assign; cbn [ID].
        rewrite Ez. apply N.eqb_eq in Eo. congruence.
      * destruct (key_taken (ID v) (rows s)); [exact Ho|]. cbn [rows].
        unfold rewrite_rows. apply ordered_fold_insert.
        now apply ordered_filter.
  - rewrite serve_DELETE_todo. destruct (fails e 0); [exact Ho|].
    cbn [snd rows]. apply ordered_map; [|exact Ho].
    intros r. now destruct (selects zero id r).
Qed.

(** X19. In every reachable store the table is in the order of its rowids,
    and so is the list: a list request that meets no storage failure shows
    the non-deleted records by ascending rowid, which for ids up to 2^63-1
    is by ascending id. *)
Theorem list_in_rowid_order (s : Store) (e : Env) :
  reachable s -> fails e 0 = false ->
  StronglySorted row_le (rows s) /\
  exists l, lists (fst (serve GET_todos e s)) l /\
            StronglySorted row_le l /\
            forall a b, In a l -> In b l ->
              (ID a <= max_rowid)%N -> (ID b <= max_rowid)%N ->
              row_le a b -> (ID a <= ID b)%N.
Proof.
  intros Hreach Hok.
  assert (ordered s) as Ho.
  { induction Hreach as [|rq e0 s _ IH]; [constructor|].
    now apply ordered_serve. }
  split; [exact Ho|]. exists (filter live (rows s)).
  split; [now apply serve_lists|]. split; [now apply ordered_filter|].
  intros a b _ _ Ha Hb. unfold row_le, rowid.
  apply N.leb_le in Ha, Hb. rewrite Ha, Hb. lia.
Qed.

Lemma list_in_rowid_order_witness :
  rows (snd (serve (POST_todos (Object milk_again)) (calm 200)
               (snd (serve (POST_todos (Object milk_numbered)) (calm 100)
                       empty))))
  = [ {| ID := 1; CreatedAt := 200; UpdatedAt := 200; DeletedAt := None;
         Title := "Buy milk"; Description := EmptyString;
         Completed := false |};
      {| ID := 7; CreatedAt := 100; UpdatedAt := 100; DeletedAt := None;
         Title := "Buy milk"; Description := EmptyString;
         Completed := false |} ] /\
  StronglySorted row_le
    (rows (snd (serve (POST_todos (Object milk_again)) (calm 200)
                  (snd (serve (POST_todos (Object milk_numbered)) (calm 100)
                          empty))))).
Proof.
  split; [reflexivity|].
  apply (list_in_rowid_order _ (calm 300)); [|reflexivity].
  apply reach_serve, reach_serve, reach_empty.
Defined.
